(** * Access rules of the classroom application

    A shallow embedding of the two generations of the document-store
    security rules ([firestore.rules], the current one, and its older copy
    that still carries the root-level [aiMaterials] collection), and the
    properties of the access decision they define.

    A request carries the actor ([request.auth], possibly null), the method,
    the path of the document and the proposed data; the snapshot of the
    store gives [resource], the document stored at that path, and answers
    [get] and [exists].  Functions declared in a [match] block see the same
    [request] and [resource] as the statement that calls them.

    Evaluation.  A condition evaluates to a boolean or raises an evaluation
    error ([Err]): reading a property of [null] (the [uid] of an absent
    [request.auth], the [data] of an absent [resource] or of a [get] on a
    document that does not exist), reading a field that a document does not
    have, [in] or [size()] on a value of the wrong type.  The rules are
    evaluated by the document store, not by code of the application; [&&]
    and [||] are the operators of its expression language: [||] is [true]
    as soon as one operand is [true] and [&&] is [false] as soon as one
    operand is [false], also when the other operand raises an error, and an
    error is the result only when no operand decides.  So a rule that
    compares with [resource.data.createdBy] can still grant a [create], where
    there is no [resource], through another alternative.  An
    [allow] statement grants when its condition evaluates to [true], and a
    request is allowed when some statement declared for its path and method
    grants; a path that no block matches is denied. *)

From stdpp Require Import gmap strings list fin_maps.
From Stdlib Require Import ZArith NArith Ascii.

Open Scope string_scope.

(** ** Values and documents *)

#[local] Set Warnings "-register-all".

Inductive value : Type :=
  | VNull
  | VBool (b : bool)
  | VInt (n : Z)
  | VStr (s : string)
  | VList (l : list value)
  | VMap (m : gmap string value).

Abbreviation doc := (gmap string value).
Abbreviation docpath := (list string).
Abbreviation store := (gmap (list string) (gmap string value)).

Inductive operation : Type := Read | Create | Update | Delete.

(** [request.auth] (its [uid], or null), the method, the path below
    [/databases/{database}/documents], and [request.resource.data]. *)
Record request : Type := Request {
  auth : option string;
  op : operation;
  path : docpath;
  proposed : option doc
}.

(** [resource]: the document stored at the request's path, if any. *)
Definition resource (st : store) (rq : request) : option doc := st !! path rq.

(** ** Evaluation results *)

Inductive eval (A : Type) : Type :=
  | Ok (a : A)
  | Err.
Arguments Ok {A} a.
Arguments Err {A}.

Definition bind {A B : Type} (e : eval A) (k : A -> eval B) : eval B :=
  match e with
  | Ok a => k a
  | Err => Err
  end.

Notation "'do' x <- e ; k" := (bind e (fun x => k))
  (at level 10, x name, e at level 100, k at level 200).

(** [a && b]: [false] when an operand is [false], [true] when both are
    [true], an error otherwise. *)
Definition and_then (a b : eval bool) : eval bool :=
  match a with
  | Ok true => b
  | Ok false => Ok false
  | Err => match b with
           | Ok false => Ok false
           | _ => Err
           end
  end.

(** [a || b]: [true] when an operand is [true], [false] when both are
    [false], an error otherwise. *)
Definition or_else (a b : eval bool) : eval bool :=
  match a with
  | Ok true => Ok true
  | Ok false => b
  | Err => match b with
           | Ok true => Ok true
           | _ => Err
           end
  end.

Definition not_ (a : eval bool) : eval bool := do b <- a; Ok (negb b).

Infix "&&&" := and_then (at level 40, left associativity).
Infix "|||" := or_else (at level 50, left associativity).

(** An [allow] statement grants only on [true]. *)
Definition granted (e : eval bool) : bool :=
  match e with
  | Ok true => true
  | _ => false
  end.

(** ** Primitive expressions *)

Definition val_is_str (v : value) (s : string) : bool :=
  match v with
  | VStr t => String.eqb t s
  | _ => false
  end.

Definition is_null (v : value) : bool :=
  match v with
  | VNull => true
  | _ => false
  end.

(** [request.auth != null] *)
Definition auth_not_null (rq : request) : eval bool :=
  Ok (match auth rq with Some _ => true | None => false end).

(** [request.auth.uid] *)
Definition auth_uid (rq : request) : eval string :=
  match auth rq with
  | Some u => Ok u
  | None => Err
  end.

(** [d.data] for [d] a document or null *)
Definition data (d : option doc) : eval doc :=
  match d with
  | Some m => Ok m
  | None => Err
  end.

(** [m.f] on a map *)
Definition field (f : string) (m : doc) : eval value :=
  match m !! f with
  | Some v => Ok v
  | None => Err
  end.

(** [v.f] on a value, which has to be a map *)
Definition subfield (f : string) (v : value) : eval value :=
  match v with
  | VMap m => field f m
  | _ => Err
  end.

(** [resource.data.f] *)
Definition resource_field (st : store) (rq : request) (f : string) : eval value :=
  do m <- data (resource st rq); field f m.

(** [request.resource.data.f] *)
Definition proposed_field (rq : request) (f : string) : eval value :=
  do m <- data (proposed rq); field f m.

(** [get(p).data.f] *)
Definition get_field (st : store) (p : docpath) (f : string) : eval value :=
  do m <- data (st !! p); field f m.

(** [exists(p)] *)
Definition exists_doc (st : store) (p : docpath) : eval bool :=
  Ok (match st !! p with Some _ => true | None => false end).

(** [a == b] for [a] a string and [b] any value *)
Definition str_eq (a : eval string) (b : eval value) : eval bool :=
  do s <- a; do v <- b; Ok (val_is_str v s).

(** [a == 'lit'] *)
Definition eq_lit (a : eval value) (lit : string) : eval bool :=
  do v <- a; Ok (val_is_str v lit).

(** [a == seg] for [seg] a path variable *)
Definition eq_seg (a : eval string) (seg : string) : eval bool :=
  do s <- a; Ok (String.eqb s seg).

(** [a != null] *)
Definition not_null (a : eval value) : eval bool :=
  do v <- a; Ok (negb (is_null v)).

(** [a in b]: an element of a list, a key of a map *)
Definition str_in (a : eval string) (b : eval value) : eval bool :=
  do s <- a; do v <- b;
  match v with
  | VList l => Ok (existsb (fun x => val_is_str x s) l)
  | VMap m => Ok (match m !! s with Some _ => true | None => false end)
  | _ => Err
  end.

(** [m.keys().hasAny(['k'])] *)
Definition has_key (m : eval doc) (k : string) : eval bool :=
  do d <- m; Ok (match d !! k with Some _ => true | None => false end).

(** [v.size()]: characters of a string, elements of a list, entries of a map *)
Definition size_of (a : eval value) : eval Z :=
  do v <- a;
  match v with
  | VStr s => Ok (Z.of_nat (String.length s))
  | VList l => Ok (Z.of_nat (length l))
  | VMap m => Ok (Z.of_nat (size m))
  | _ => Err
  end.

Definition lt_lit (a : eval Z) (n : Z) : eval bool :=
  do x <- a; Ok (Z.ltb x n).

(** ** Paths *)

Definition class_path (classId : string) : docpath := ["classes"; classId].
Definition member_path (classId uid : string) : docpath :=
  ["classes"; classId; "members"; uid].
Definition subject_path (classId subjectId : string) : docpath :=
  ["classes"; classId; "subjects"; subjectId].

(** [request.auth.uid == get(/.../classes/$(classId)).data.createdBy] *)
Definition is_class_creator (st : store) (rq : request) (classId : string) : eval bool :=
  str_eq (auth_uid rq) (get_field st (class_path classId) "createdBy").

(** [exists(/.../classes/$(classId)/members/$(request.auth.uid))] *)
Definition member_exists (st : store) (rq : request) (classId : string) : eval bool :=
  do u <- auth_uid rq; exists_doc st (member_path classId u).

(** [get(/.../classes/$(classId)/members/$(request.auth.uid)).data.role] *)
Definition member_role (st : store) (rq : request) (classId : string) : eval value :=
  do u <- auth_uid rq; get_field st (member_path classId u) "role".

(** ** The current rules ([firestore.rules]) *)

Module Current.

(** The [match] blocks, with the path variables they bind. *)
Inductive target : Type :=
  | TClass (classId : string)
  | TMember (classId memberId : string)
  | TAiMaterial (classId materialId : string)
  | TAssignment (classId assignmentId : string)
  | TComment (classId assignmentId commentId : string)
  | TCompletionApproval (classId approvalId : string)
  | TSubject (classId subjectId : string)
  | TExperience (classId userId : string)
  | TGallery (classId imageId : string)
  | TAlbum (classId albumId : string)
  | TFeaturedImage (classId imageId : string)
  | TGalleryApproval (classId approvalId : string)
  | TUser (userId : string)
  | TCompletedAssignment (userId completionId : string).

(** A block applies to the documents of exactly its own depth. *)
Definition resolve (p : docpath) : option target :=
  match p with
  | [col; id] =>
      if String.eqb col "classes" then Some (TClass id)
      else if String.eqb col "users" then Some (TUser id)
      else None
  | [col; id; sub; id2] =>
      if String.eqb col "classes" then
        if String.eqb sub "members" then Some (TMember id id2)
        else if String.eqb sub "aiMaterials" then Some (TAiMaterial id id2)
        else if String.eqb sub "assignments" then Some (TAssignment id id2)
        else if String.eqb sub "completionApprovals" then Some (TCompletionApproval id id2)
        else if String.eqb sub "subjects" then Some (TSubject id id2)
        else if String.eqb sub "experience" then Some (TExperience id id2)
        else if String.eqb sub "gallery" then Some (TGallery id id2)
        else if String.eqb sub "albums" then Some (TAlbum id id2)
        else if String.eqb sub "featuredImages" then Some (TFeaturedImage id id2)
        else if String.eqb sub "galleryApprovals" then Some (TGalleryApproval id id2)
        else None
      else if String.eqb col "users" then
        if String.eqb sub "completedAssignments" then Some (TCompletedAssignment id id2)
        else None
      else None
  | [col; id; sub; id2; sub2; id3] =>
      if String.eqb col "classes" && String.eqb sub "assignments"
         && String.eqb sub2 "comments"
      then Some (TComment id id2 id3)
      else None
  | _ => None
  end.

Section Helpers.
Variables (st : store) (rq : request) (classId : string).

(** [request.auth.uid == resource.data.createdBy], the first test of
    [isAdmin()]. *)
Definition is_resource_creator : eval bool :=
  str_eq (auth_uid rq) (resource_field st rq "createdBy").

Definition isAdmin : eval bool :=
  is_resource_creator
  ||| member_exists st rq classId
      &&& (eq_lit (member_role st rq classId) "admin"
           ||| eq_lit (member_role st rq classId) "teacher").

Definition isTeacher : eval bool :=
  member_exists st rq classId
  &&& eq_lit (member_role st rq classId) "teacher".

Definition isTeacherForSubject (subjectId : string) : eval bool :=
  exists_doc st (subject_path classId subjectId)
  &&& isTeacher
  &&& not_null (get_field st (subject_path classId subjectId) "teachers")
  &&& str_in (auth_uid rq) (get_field st (subject_path classId subjectId) "teachers").
End Helpers.

(** The conditions of the [allow] statements of a block for a method, in
    the order of the file. *)
Definition grants (st : store) (rq : request) (t : target) (o : operation)
  : list (eval bool) :=
  let nn := auth_not_null rq in
  let uid := auth_uid rq in
  let rf := resource_field st rq in
  let owner := is_class_creator st rq in
  match t with
  | TClass classId =>
      match o with
      | Read => [nn]
      | Create => [nn]
      | Update | Delete => [nn &&& str_eq uid (rf "createdBy")]
      end
  | TMember classId memberId =>
      match o with
      | Read => [nn]
      | Create =>
          [nn &&& (owner classId ||| str_eq uid (proposed_field rq "userId"))]
      | Update | Delete =>
          [nn &&& (owner classId ||| str_eq uid (rf "userId"))]
      end
  | TAiMaterial classId materialId =>
      match o with
      | Read => [nn]
      | Create => [nn]
      | Update => [nn]
      | Delete =>
          [nn &&& (str_eq uid (do c <- rf "createdBy"; subfield "uid" c)
                   ||| owner classId)]
      end
  | TAssignment classId assignmentId =>
      match o with
      | Read => [nn]
      | Create => [nn]
      | Update | Delete =>
          [nn &&& (str_eq uid (rf "createdBy") ||| owner classId)]
      end
  | TComment classId assignmentId commentId =>
      match o with
      | Read => [nn]
      | Create => [nn]
      | Update => [nn &&& str_eq uid (rf "userId")]
      | Delete => [nn &&& str_eq uid (rf "userId"); nn &&& owner classId]
      end
  | TCompletionApproval classId approvalId =>
      match o with
      | Read => [nn]
      | Create => [nn &&& str_eq uid (proposed_field rq "userId")]
      | Update | Delete =>
          [nn &&& (owner classId
                   ||| isAdmin st rq classId
                   ||| isTeacher st rq classId
                   ||| (not_null (rf "subjectTeachers")
                        &&& str_in uid (rf "subjectTeachers"))
                   ||| (not_null (rf "approvedBy")
                        &&& str_eq uid (rf "approvedBy"))
                   ||| (not_null (rf "gradedBy")
                        &&& str_eq uid (rf "gradedBy")))]
      end
  | TSubject classId subjectId =>
      match o with
      | Read => [nn]
      | Create => [nn]
      | Update =>
          [nn &&& (str_eq uid (rf "createdBy")
                   ||| owner classId
                   ||| isTeacherForSubject st rq classId subjectId)]
      | Delete =>
          [nn &&& (str_eq uid (rf "createdBy") ||| owner classId)]
      end
  | TExperience classId userId =>
      match o with
      | Read => [nn]
      | Create | Update => [nn &&& eq_seg uid userId; nn &&& owner classId]
      | Delete => []
      end
  | TGallery classId _ | TAlbum classId _ | TFeaturedImage classId _ =>
      match o with
      | Read => [nn]
      | Create | Update | Delete =>
          [nn &&& (str_eq uid (rf "createdBy")
                   ||| owner classId
                   ||| isAdmin st rq classId)]
      end
  | TGalleryApproval classId approvalId =>
      match o with
      | Read => [nn]
      | Create => [nn &&& str_eq uid (proposed_field rq "createdBy")]
      | Update | Delete => [nn &&& (owner classId ||| isAdmin st rq classId)]
      end
  | TUser userId =>
      let write := nn &&& eq_seg uid userId in
      let keys := data (proposed rq) in
      match o with
      | Read => [nn]
      | Create | Delete => [write]
      | Update =>
          [write;
           nn &&& eq_seg uid userId
           &&& (not_ (has_key keys "photoBase64")
                ||| (has_key keys "photoBase64"
                     &&& lt_lit (size_of (proposed_field rq "photoBase64")) 1048576))]
      end
  | TCompletedAssignment userId completionId =>
      match o with
      | Read => [nn &&& eq_seg uid userId]
      | Create => [nn]
      | Update =>
          [nn &&& (str_eq uid (rf "approvedBy")
                   ||| str_eq uid (rf "teacherId")
                   ||| str_eq uid (rf "gradedBy"))]
      | Delete => []
      end
  end.

(** The decision: some statement of the matching block grants. *)
Definition allowed (st : store) (rq : request) : bool :=
  match resolve (path rq) with
  | Some t => existsb granted (grants st rq t (op rq))
  | None => false
  end.

End Current.

(** ** The legacy rules (the older copy, with the root-level [aiMaterials]) *)

Module Legacy.

Inductive target : Type :=
  | TClass (classId : string)
  | TMember (classId memberId : string)
  | TAiMaterial (classId materialId : string)
  | TAssignment (classId assignmentId : string)
  | TComment (classId assignmentId commentId : string)
  | TCompletionApproval (classId approvalId : string)
  | TSubject (classId subjectId : string)
  | TExperience (classId userId : string)
  | TGallery (classId imageId : string)
  | TAlbum (classId albumId : string)
  | TFeaturedImage (classId imageId : string)
  | TGalleryApproval (classId approvalId : string)
  | TUser (userId : string)
  | TRootAiMaterial (materialId : string).

Definition resolve (p : docpath) : option target :=
  match p with
  | [col; id] =>
      if String.eqb col "classes" then Some (TClass id)
      else if String.eqb col "users" then Some (TUser id)
      else if String.eqb col "aiMaterials" then Some (TRootAiMaterial id)
      else None
  | [col; id; sub; id2] =>
      if String.eqb col "classes" then
        if String.eqb sub "members" then Some (TMember id id2)
        else if String.eqb sub "aiMaterials" then Some (TAiMaterial id id2)
        else if String.eqb sub "assignments" then Some (TAssignment id id2)
        else if String.eqb sub "completionApprovals" then Some (TCompletionApproval id id2)
        else if String.eqb sub "subjects" then Some (TSubject id id2)
        else if String.eqb sub "experience" then Some (TExperience id id2)
        else if String.eqb sub "gallery" then Some (TGallery id id2)
        else if String.eqb sub "albums" then Some (TAlbum id id2)
        else if String.eqb sub "featuredImages" then Some (TFeaturedImage id id2)
        else if String.eqb sub "galleryApprovals" then Some (TGalleryApproval id id2)
        else None
      else None
  | [col; id; sub; id2; sub2; id3] =>
      if String.eqb col "classes" && String.eqb sub "assignments"
         && String.eqb sub2 "comments"
      then Some (TComment id id2 id3)
      else None
  | _ => None
  end.

Section Helpers.
Variables (st : store) (rq : request) (classId : string).

Definition is_resource_creator : eval bool :=
  str_eq (auth_uid rq) (resource_field st rq "createdBy").

Definition isAdmin : eval bool :=
  is_resource_creator
  ||| member_exists st rq classId
      &&& eq_lit (member_role st rq classId) "admin".
End Helpers.

(** [request.auth.uid ==
     get(/.../classes/$(resource.data.classId)).data.createdBy]: the class is
    named by a field of the material, which has to be a string to make a
    path. *)
Definition is_creator_of_resource_class (st : store) (rq : request) : eval bool :=
  str_eq (auth_uid rq)
    (do c <- resource_field st rq "classId";
     match c with
     | VStr classId => get_field st (class_path classId) "createdBy"
     | _ => Err
     end).

Definition grants (st : store) (rq : request) (t : target) (o : operation)
  : list (eval bool) :=
  let nn := auth_not_null rq in
  let uid := auth_uid rq in
  let rf := resource_field st rq in
  let owner := is_class_creator st rq in
  match t with
  | TClass classId =>
      match o with
      | Read => [nn]
      | Create => [nn]
      | Update | Delete => [nn &&& str_eq uid (rf "createdBy")]
      end
  | TMember classId memberId =>
      match o with
      | Read => [nn]
      | Create =>
          [nn &&& (owner classId ||| str_eq uid (proposed_field rq "userId"))]
      | Update | Delete =>
          [nn &&& (owner classId ||| str_eq uid (rf "userId"))]
      end
  | TAiMaterial classId materialId =>
      match o with
      | Read => [nn]
      | Create => [nn]
      | Update | Delete =>
          [nn &&& (str_eq uid (do c <- rf "createdBy"; subfield "uid" c)
                   ||| owner classId)]
      end
  | TAssignment classId assignmentId =>
      match o with
      | Read => [nn]
      | Create => [nn]
      | Update | Delete =>
          [nn &&& (str_eq uid (rf "createdBy") ||| owner classId)]
      end
  | TComment classId assignmentId commentId =>
      match o with
      | Read => [nn]
      | Create => [nn]
      | Update => [nn &&& str_eq uid (rf "userId")]
      | Delete => [nn &&& str_eq uid (rf "userId"); nn &&& owner classId]
      end
  | TCompletionApproval classId approvalId =>
      match o with
      | Read => [nn]
      | Create => [nn &&& str_eq uid (proposed_field rq "userId")]
      | Update | Delete => [nn &&& owner classId]
      end
  | TSubject classId subjectId =>
      match o with
      | Read => [nn]
      | Create => [nn]
      | Update | Delete =>
          [nn &&& (str_eq uid (rf "createdBy") ||| owner classId)]
      end
  | TExperience classId userId =>
      match o with
      | Read => [nn]
      | Create | Update => [nn &&& eq_seg uid userId; nn &&& owner classId]
      | Delete => []
      end
  | TGallery classId _ | TAlbum classId _ | TFeaturedImage classId _ =>
      match o with
      | Read => [nn]
      | Create | Update | Delete =>
          [nn &&& (str_eq uid (rf "createdBy")
                   ||| owner classId
                   ||| isAdmin st rq classId)]
      end
  | TGalleryApproval classId approvalId =>
      match o with
      | Read => [nn]
      | Create => [nn &&& str_eq uid (proposed_field rq "createdBy")]
      | Update | Delete => [nn &&& (owner classId ||| isAdmin st rq classId)]
      end
  | TUser userId =>
      let write := nn &&& eq_seg uid userId in
      let keys := data (proposed rq) in
      match o with
      | Read => [nn]
      | Create | Delete => [write]
      | Update =>
          [write;
           nn &&& eq_seg uid userId
           &&& (not_ (has_key keys "photoBase64")
                ||| (has_key keys "photoBase64"
                     &&& lt_lit (size_of (proposed_field rq "photoBase64")) 1048576))]
      end
  | TRootAiMaterial materialId =>
      match o with
      | Read => [nn]
      | Create => [nn]
      | Update | Delete =>
          [nn &&& str_eq uid (do c <- rf "createdBy"; subfield "uid" c);
           nn &&& is_creator_of_resource_class st rq]
      end
  end.

Definition allowed (st : store) (rq : request) : bool :=
  match resolve (path rq) with
  | Some t => existsb granted (grants st rq t (op rq))
  | None => false
  end.

End Legacy.

(** ** The two generations together *)

Inductive generation : Type := current | legacy.

Definition decision (g : generation) (st : store) (rq : request) : bool :=
  match g with
  | current => Current.allowed st rq
  | legacy => Legacy.allowed st rq
  end.

(** ** Vocabulary of the properties *)

Definition assignment_path (classId assignmentId : string) : docpath :=
  ["classes"; classId; "assignments"; assignmentId].
Definition comment_path (classId assignmentId commentId : string) : docpath :=
  ["classes"; classId; "assignments"; assignmentId; "comments"; commentId].
Definition approval_path (classId approvalId : string) : docpath :=
  ["classes"; classId; "completionApprovals"; approvalId].
Definition user_path (userId : string) : docpath := ["users"; userId].

(** The document [d] exists and its field [f] holds the string [u]. *)
Definition field_names (d : option doc) (f u : string) : Prop :=
  exists m, d = Some m /\ m !! f = Some (VStr u).

Definition doc_field_is (d : option doc) (f u : string) : bool :=
  match d with
  | Some m =>
      match m !! f with
      | Some v => val_is_str v u
      | None => false
      end
  | None => false
  end.

(** The document [d] exists and [u] is an element (a key) of its field [f]. *)
Definition listed_in (d : option doc) (f u : string) : bool :=
  match d with
  | Some m =>
      match m !! f with
      | Some (VList l) => existsb (fun x => val_is_str x u) l
      | Some (VMap k) => match k !! u with Some _ => true | None => false end
      | _ => false
      end
  | None => false
  end.

(** An expression that evaluates without an error. *)
Definition no_error {A : Type} (e : eval A) : Prop := e <> Err.

(** The request of an authenticated actor. *)
Definition by_actor (u : string) (o : operation) (p : docpath) (pr : option doc)
  : request := Request (Some u) o p pr.

Definition update_or_delete (o : operation) : bool :=
  match o with
  | Update | Delete => true
  | Read | Create => false
  end.

(** The six authorizations of a completion approval, each taken alone:
    creator of the class, [isAdmin()], [isTeacher()], listed in
    [subjectTeachers], [approvedBy], [gradedBy]. *)
Definition approval_authorized (st : store) (rq : request) (classId u : string)
  : bool :=
  doc_field_is (st !! class_path classId) "createdBy" u
  || granted (Current.isAdmin st rq classId)
  || granted (Current.isTeacher st rq classId)
  || listed_in (resource st rq) "subjectTeachers" u
  || doc_field_is (resource st rq) "approvedBy" u
  || doc_field_is (resource st rq) "gradedBy" u.

(** The authorizations of a subject: its creator, the creator of the class,
    and for updates [isTeacherForSubject]. *)
Definition subject_creator_or_owner (st : store) (rq : request) (classId u : string)
  : bool :=
  doc_field_is (resource st rq) "createdBy" u
  || doc_field_is (st !! class_path classId) "createdBy" u.


(** The actor created the class: the [createdBy] of the class document. *)
Definition class_owner (st : store) (classId u : string) : bool :=
  doc_field_is (st !! class_path classId) "createdBy" u.

(** The actor has a Member record of the class with role [teacher]. *)
Definition teacher_member (st : store) (rq : request) (classId : string) : bool :=
  match auth rq with
  | Some u => doc_field_is (st !! member_path classId u) "role" "teacher"
  | None => false
  end.

(** ** Sample snapshots *)

Definition mkdoc (l : list (string * value)) : doc := list_to_map l.

(** Class [c1] of alice, with bob as admin, carol as teacher of subject [s1]
    and dave as plain member; erin asked for an approval that dave graded.
    Class [c9] has been deleted but its subcollections are still there. *)
Definition demo : store :=
  list_to_map
    [ (class_path "c1", mkdoc [("createdBy", VStr "alice")]);
      (member_path "c1" "bob", mkdoc [("userId", VStr "bob"); ("role", VStr "admin")]);
      (member_path "c1" "carol", mkdoc [("userId", VStr "carol"); ("role", VStr "teacher")]);
      (member_path "c1" "dave", mkdoc [("userId", VStr "dave"); ("role", VStr "member")]);
      (subject_path "c1" "s1",
        mkdoc [("createdBy", VStr "alice"); ("teachers", VList [VStr "carol"])]);
      (approval_path "c1" "a1",
        mkdoc [("userId", VStr "erin"); ("createdBy", VStr "erin");
               ("status", VStr "pending"); ("subjectTeachers", VList [VStr "carol"]);
               ("approvedBy", VNull); ("gradedBy", VStr "dave")]);
      (comment_path "c1" "as1" "k1", mkdoc [("userId", VStr "dave")]);
      (member_path "c9" "carol", mkdoc [("userId", VStr "carol"); ("role", VStr "teacher")]);
      (subject_path "c9" "s1",
        mkdoc [("createdBy", VStr "zed"); ("teachers", VList [VStr "carol"])]);
      (approval_path "c9" "a1",
        mkdoc [("userId", VStr "erin"); ("createdBy", VStr "erin");
               ("status", VStr "pending"); ("subjectTeachers", VList [VStr "carol"]);
               ("approvedBy", VNull); ("gradedBy", VStr "dave")]) ].

(** The sample snapshot where alice, who created class [c1], also has a
    Member record with role [teacher], with a photo [g1] of dave and a photo
    [g2] of carol in the gallery of the class. *)
Definition demo_teachers : store :=
  <[member_path "c1" "alice" :=
      mkdoc [("userId", VStr "alice"); ("role", VStr "teacher")]]>
  (<[["classes"; "c1"; "gallery"; "g1"] := mkdoc [("createdBy", VStr "dave")]]>
   (<[["classes"; "c1"; "gallery"; "g2"] := mkdoc [("createdBy", VStr "carol")]]>
    demo)).

(** A string of [n] characters. *)
Definition filler (n : N) : string := N.iter n (String "A"%char) "".

Definition oversized_photo : doc := {[ "photoBase64" := VStr (filler 1048577) ]}.

(** ** Proof automation *)

(** Evaluate a decision down to the conditions of the matching block. *)
Ltac eval_rules :=
  unfold by_actor;
  cbn -[lookup doc_field_is listed_in granted str_eq str_in not_null
        is_class_creator Current.isAdmin Current.isTeacher
        Current.isTeacherForSubject Legacy.isAdmin has_key size_of];
  unfold resource_field, resource, is_class_creator, get_field;
  cbn [path auth auth_uid];
  rewrite ?orb_false_r.

(** ** Vocabulary of the other blocks *)

Definition material_path (classId materialId : string) : docpath :=
  ["classes"; classId; "aiMaterials"; materialId].
Definition experience_path (classId userId : string) : docpath :=
  ["classes"; classId; "experience"; userId].
Definition gallery_path (classId imageId : string) : docpath :=
  ["classes"; classId; "gallery"; imageId].
Definition album_path (classId albumId : string) : docpath :=
  ["classes"; classId; "albums"; albumId].
Definition featured_path (classId imageId : string) : docpath :=
  ["classes"; classId; "featuredImages"; imageId].
Definition gallery_approval_path (classId approvalId : string) : docpath :=
  ["classes"; classId; "galleryApprovals"; approvalId].
Definition completed_path (userId completionId : string) : docpath :=
  ["users"; userId; "completedAssignments"; completionId].
Definition root_material_path (materialId : string) : docpath :=
  ["aiMaterials"; materialId].

(** The document [d] exists and its field [f] is a map whose entry [g] holds
    the string [u]. *)
Definition doc_subfield_is (d : option doc) (f g u : string) : bool :=
  match d with
  | Some m =>
      match m !! f with
      | Some (VMap k) =>
          match k !! g with
          | Some v => val_is_str v u
          | None => false
          end
      | _ => false
      end
  | None => false
  end.

(** The document [d] exists and has a field [f] that is not the string [u]. *)
Definition doc_field_differs (d : option doc) (f u : string) : bool :=
  match d with
  | Some m =>
      match m !! f with
      | Some v => negb (val_is_str v u)
      | None => false
      end
  | None => false
  end.

(** The material names a class in [classId] and [u] created that class. *)
Definition creator_of_named_class (st : store) (d : option doc) (u : string) : bool :=
  match d with
  | Some m =>
      match m !! "classId" with
      | Some (VStr classId) => doc_field_is (st !! class_path classId) "createdBy" u
      | _ => false
      end
  | None => false
  end.

(** The shapes of the paths that some block matches. *)
Definition class_collections : list string :=
  ["members"; "aiMaterials"; "assignments"; "completionApprovals"; "subjects";
   "experience"; "gallery"; "albums"; "featuredImages"; "galleryApprovals"].

Definition matched_shape (g : generation) (p : docpath) : Prop :=
  (exists id, p = ["classes"; id])
  \/ (exists id, p = ["users"; id])
  \/ (exists c sub id, p = ["classes"; c; sub; id] /\ In sub class_collections)
  \/ (exists c a k, p = comment_path c a k)
  \/ (g = current /\ exists u k, p = completed_path u k)
  \/ (g = legacy /\ exists m, p = root_material_path m).

(** The four collections whose writes go through [isAdmin()] in both
    generations. *)
Definition admin_managed_path (classId id : string) : list docpath :=
  [ gallery_path classId id; album_path classId id; featured_path classId id;
    gallery_approval_path classId id ].

(** The sample snapshot with a photo, an album, a featured image and a
    gallery approval, all created by dave. *)
Definition demo_gallery : store :=
  <[gallery_path "c1" "g1" := mkdoc [("createdBy", VStr "dave")]]>
  (<[album_path "c1" "g1" := mkdoc [("createdBy", VStr "dave")]]>
   (<[featured_path "c1" "g1" := mkdoc [("createdBy", VStr "dave")]]>
    (<[gallery_approval_path "c1" "g1" := mkdoc [("createdBy", VStr "dave")]]>
     demo))).

(** The path a block matches, for given path variables. *)
Definition current_path_of (t : Current.target) : docpath :=
  match t with
  | Current.TClass c => class_path c
  | Current.TMember c i => member_path c i
  | Current.TAiMaterial c i => material_path c i
  | Current.TAssignment c i => assignment_path c i
  | Current.TComment c a k => comment_path c a k
  | Current.TCompletionApproval c i => approval_path c i
  | Current.TSubject c i => subject_path c i
  | Current.TExperience c i => experience_path c i
  | Current.TGallery c i => gallery_path c i
  | Current.TAlbum c i => album_path c i
  | Current.TFeaturedImage c i => featured_path c i
  | Current.TGalleryApproval c i => gallery_approval_path c i
  | Current.TUser u => user_path u
  | Current.TCompletedAssignment u k => completed_path u k
  end.

Definition legacy_path_of (t : Legacy.target) : docpath :=
  match t with
  | Legacy.TClass c => class_path c
  | Legacy.TMember c i => member_path c i
  | Legacy.TAiMaterial c i => material_path c i
  | Legacy.TAssignment c i => assignment_path c i
  | Legacy.TComment c a k => comment_path c a k
  | Legacy.TCompletionApproval c i => approval_path c i
  | Legacy.TSubject c i => subject_path c i
  | Legacy.TExperience c i => experience_path c i
  | Legacy.TGallery c i => gallery_path c i
  | Legacy.TAlbum c i => album_path c i
  | Legacy.TFeaturedImage c i => featured_path c i
  | Legacy.TGalleryApproval c i => gallery_approval_path c i
  | Legacy.TUser u => user_path u
  | Legacy.TRootAiMaterial m => root_material_path m
  end.

(** Decide the string tests of a path match. *)
Ltac split_segments :=
  repeat match goal with
    | |- context [String.eqb ?a ?b] =>
        destruct (String.eqb_spec a b); subst; cbn [andb]
    end.

(** The actor has a Member record of the class with role [admin]. *)
Definition admin_member (st : store) (rq : request) (classId : string) : bool :=
  match auth rq with
  | Some u => doc_field_is (st !! member_path classId u) "role" "admin"
  | None => false
  end.

(** The roles that [isAdmin()] accepts in each generation. *)
Definition admin_role (g : generation) (st : store) (rq : request) (classId : string)
  : bool :=
  match g with
  | current => admin_member st rq classId || teacher_member st rq classId
  | legacy => admin_member st rq classId
  end.

(** ** Groups of an assignment (the assignment screen) *)

Module Groups.

(** A member of a group, a group, and the signed-in user. *)
Record member : Type := Member {
  userId : string;
  displayName : string;
  email : string
}.

Record group : Type := Group {
  name : string;
  members : list member
}.

Record user : Type := User {
  uid : string;
  user_displayName : option string;
  user_email : string
}.

(** [member.userId === user.uid] *)
Definition is_user (u : string) (m : member) : bool := String.eqb (userId m) u.

(** The loop of [findUserInGroups], from index [i] on. *)
Fixpoint find_from (u : string) (i : nat) (groups : list group)
  : option (nat * group) :=
  match groups with
  | [] => None
  | g :: rest =>
      if existsb (is_user u) (members g) then Some (i, g)
      else find_from u (S i) rest
  end.

(** [findUserInGroups]: null without a user, an assignment or its groups;
    otherwise the first group that lists the user, with its index. *)
Definition findUserInGroups (usr : option user) (groups : option (list group))
  : option (nat * group) :=
  match usr, groups with
  | Some u, Some gs => find_from (uid u) 0 gs
  | _, _ => None
  end.

(** [email.split('@')[0]] *)
Fixpoint before_at (s : string) : string :=
  match s with
  | EmptyString => EmptyString
  | String c rest => if Ascii.eqb c "@"%char then EmptyString else String c (before_at rest)
  end.

(** [user.displayName || user.email.split('@')[0]] *)
Definition display_name (u : user) : string :=
  match user_displayName u with
  | Some (String c rest) => String c rest
  | _ => before_at (user_email u)
  end.

Definition newMember (u : user) : member :=
  Member (uid u) (display_name u) (user_email u).

(** [group.members = group.members.filter(m => m.userId !== user.uid)] *)
Definition without (u : string) (g : group) : group :=
  Group (name g) (List.filter (fun m => negb (is_user u m)) (members g)).

(** The groups that [handleJoinGroup] writes: the user is removed from every
    group and pushed at the end of the chosen one.  An index that names no
    group raises a TypeError, which the handler catches: nothing is
    written. *)
Definition handleJoinGroup (u : user) (groupIndex : nat) (groups : list group)
  : option (list group) :=
  let cleared := map (without (uid u)) groups in
  match cleared !! groupIndex with
  | Some g =>
      Some (<[groupIndex := Group (name g) (members g ++ [newMember u])]> cleared)
  | None => None
  end.

(** The chosen group once the user has joined it. *)
Definition joined (u : user) (g : group) : group :=
  Group (name g) (members (without (uid u) g) ++ [newMember u]).

(** The groups that [handleLeaveGroup] writes: the user is removed from the
    group that [findUserInGroups] found; without a user, groups or such a
    group the handler returns before it writes. *)
Definition handleLeaveGroup (usr : option user) (groups : option (list group))
  : option (list group) :=
  match usr, groups, findUserInGroups usr groups with
  | Some u, Some gs, Some (i, _) => Some (alter (without (uid u)) i gs)
  | _, _, _ => None
  end.

(** The group lists the user. *)
Definition lists (u : string) (g : group) : bool := existsb (is_user u) (members g).

(** How many times the user is listed, over all groups. *)
Definition listings (u : string) (groups : list group) : nat :=
  list_sum (map (fun g => length (List.filter (is_user u) (members g))) groups).

(** [prevPhotos.filter((_, index) => index !== indexToRemove)] *)
Fixpoint removePhoto_from {A : Type} (i indexToRemove : nat) (photos : list A) : list A :=
  match photos with
  | [] => []
  | x :: rest =>
      if Nat.eqb i indexToRemove then removePhoto_from (S i) indexToRemove rest
      else x :: removePhoto_from (S i) indexToRemove rest
  end.

Definition removePhoto {A : Type} (indexToRemove : nat) (photos : list A) : list A :=
  removePhoto_from 0 indexToRemove photos.

End Groups.

(** * Properties *)

(** ** Evaluation lemmas *)

Lemma val_is_str_true (v : value) (s : string) :
  val_is_str v s = true <-> v = VStr s.
Proof.
  destruct v; cbn; try (split; [discriminate | congruence]).
  rewrite String.eqb_eq. split; congruence.
Qed.

Lemma doc_field_is_true (d : option doc) (f u : string) :
  doc_field_is d f u = true <-> field_names d f u.
Proof.
  unfold doc_field_is, field_names. split.
  - destruct d as [m|]; [|discriminate].
    destruct (m !! f) as [v|] eqn:E; [|discriminate].
    intros ->%val_is_str_true. eauto.
  - intros (m & -> & ->). now apply val_is_str_true.
Qed.

Lemma granted_str_eq_doc (d : option doc) (f u : string) :
  granted (str_eq (Ok u) (do m <- data d; field f m)) = doc_field_is d f u.
Proof.
  unfold doc_field_is, field. destruct d as [m|]; cbn; [|reflexivity].
  destruct (m !! f); cbn; [|reflexivity]. now destruct (val_is_str _ _).
Qed.

Lemma granted_or (a b : eval bool) :
  granted (a ||| b) = granted a || granted b.
Proof. destruct a as [[]|], b as [[]|]; reflexivity. Qed.

Lemma granted_and (a b : eval bool) :
  granted (a &&& b) = granted a && granted b.
Proof. destruct a as [[]|], b as [[]|]; reflexivity. Qed.

Lemma get_field_missing (st : store) (p : docpath) (f : string) :
  st !! p = None -> get_field st p f = Err.
Proof. unfold get_field. now intros ->. Qed.

(** [x != null && uid == x] holds exactly when [x] is the actor's id. *)
Lemma granted_guarded_eq (d : option doc) (f u : string) :
  granted (not_null (do m <- data d; field f m)
           &&& str_eq (Ok u) (do m <- data d; field f m))
  = doc_field_is d f u.
Proof.
  unfold doc_field_is, field. destruct d as [m|]; cbn; [|reflexivity].
  destruct (m !! f) as [v|]; cbn; [|reflexivity].
  destruct v; cbn; try reflexivity. now destruct (String.eqb _ _).
Qed.

(** [x != null && uid in x] holds exactly when the actor is listed in [x]. *)
Lemma granted_guarded_in (d : option doc) (f u : string) :
  granted (not_null (do m <- data d; field f m)
           &&& str_in (Ok u) (do m <- data d; field f m))
  = listed_in d f u.
Proof.
  unfold listed_in, field. destruct d as [m|]; cbn; [|reflexivity].
  destruct (m !! f) as [v|]; cbn; [|reflexivity].
  destruct v; cbn; try reflexivity.
  - now destruct (existsb _ _).
  - now destruct (_ !! _).
Qed.

Lemma length_filler (n : N) : String.length (filler n) = N.to_nat n.
Proof.
  unfold filler. induction n as [|n IH] using N.peano_ind; [reflexivity|].
  rewrite N.iter_succ, N2Nat.inj_succ. cbn [String.length]. now rewrite IH.
Qed.

(** C1.  A request without an authenticated actor is denied, whatever the
    method, the path (matched by a block or not), the snapshot and the
    proposed data, under the current and under the legacy rules. *)
Theorem unauthenticated_denied (g : generation) (st : store) (o : operation)
    (p : docpath) (pr : option doc) :
  decision g st (Request None o p pr) = false.
Proof.
  destruct g; cbn [decision]; unfold Current.allowed, Legacy.allowed; cbn [path op].
  - destruct (Current.resolve p) as [t|]; [|reflexivity].
    destruct t, o; reflexivity.
  - destruct (Legacy.resolve p) as [t|]; [|reflexivity].
    destruct t, o; reflexivity.
Qed.

(** C3.  Updating and deleting a Class document is allowed exactly when the
    actor is the [createdBy] of the stored document, under both rule
    generations; a Member record with role [admin] changes nothing: an admin
    who is not the creator is denied. *)
Theorem class_write_creator_only (g : generation) (st : store) (u c : string)
    (pr : option doc) :
  (decision g st (by_actor u Update (class_path c) pr) = true
     <-> field_names (st !! class_path c) "createdBy" u)
  /\ (decision g st (by_actor u Delete (class_path c) pr) = true
     <-> field_names (st !! class_path c) "createdBy" u)
  /\ (field_names (st !! member_path c u) "role" "admin" ->
      ~ field_names (st !! class_path c) "createdBy" u ->
      decision g st (by_actor u Update (class_path c) pr) = false
      /\ decision g st (by_actor u Delete (class_path c) pr) = false).
Proof.
  rewrite <- doc_field_is_true.
  assert (E : forall o, o = Update \/ o = Delete ->
    decision g st (by_actor u o (class_path c) pr)
    = doc_field_is (st !! class_path c) "createdBy" u).
  { intros o [-> | ->]; destruct g; eval_rules; apply granted_str_eq_doc. }
  rewrite !E by auto. repeat split; try tauto.
  all: apply not_true_is_false; tauto.
Qed.

Lemma class_write_creator_only_witness :
  decision current demo (by_actor "bob" Delete (class_path "c1") None) = false
  /\ decision current demo (by_actor "alice" Delete (class_path "c1") None) = true.
Proof.
  split.
  - apply (class_write_creator_only current demo "bob" "c1" None).
    + exists (mkdoc [("userId", VStr "bob"); ("role", VStr "admin")]).
      split; vm_compute; reflexivity.
    + intros H%doc_field_is_true. vm_compute in H. discriminate H.
  - apply (class_write_creator_only current demo "alice" "c1" None).
    exists (mkdoc [("createdBy", VStr "alice")]). split; vm_compute; reflexivity.
Defined.

(** C8.  Deleting a Comment is allowed exactly when the actor is the
    [userId] of the stored comment or the [createdBy] of the class, under
    both rule generations: the two [allow] statements that name [delete] are
    alternatives, and either one alone grants. *)
Theorem comment_delete_either_grant (g : generation) (st : store)
    (u c a k : string) (pr : option doc) :
  decision g st (by_actor u Delete (comment_path c a k) pr) = true
  <-> field_names (st !! comment_path c a k) "userId" u
      \/ field_names (st !! class_path c) "createdBy" u.
Proof.
  rewrite <- !doc_field_is_true, <- orb_true_iff.
  destruct g; eval_rules.
  all: now rewrite !granted_str_eq_doc.
Qed.

(** C9.  An authenticated actor may create an Assignment and a Subject in
    any class, whatever the snapshot (memberships, roles, even the existence
    of the class) and whatever the proposed document says, under both rule
    generations. *)
Theorem create_assignment_subject_unconditional (g : generation) (st : store)
    (u c id : string) (pr : option doc) :
  decision g st (by_actor u Create (assignment_path c id) pr) = true
  /\ decision g st (by_actor u Create (subject_path c id) pr) = true.
Proof. destruct g; split; reflexivity. Qed.

(** C10.  A read of a document of one of the twelve collections of a class
    (the classes themselves, members, aiMaterials, assignments, the comments
    of an assignment, completionApprovals, subjects, experience, gallery,
    albums, featuredImages, galleryApprovals) is decided by the presence of
    an actor alone: two evaluations for the same actor give the same decision
    whatever the two snapshots and proposed documents are, and the decision
    is allow exactly when the actor is authenticated, under both rule
    generations. *)
Theorem class_read_depends_on_actor_only (g : generation) (c i j : string)
    (a : option string) (st1 st2 : store) (pr1 pr2 : option doc) :
  Forall (fun p =>
            decision g st1 (Request a Read p pr1) = decision g st2 (Request a Read p pr2)
            /\ decision g st1 (Request a Read p pr1) = bool_decide (is_Some a))
    [ ["classes"; c];
      ["classes"; c; "members"; i];
      ["classes"; c; "aiMaterials"; i];
      ["classes"; c; "assignments"; i];
      ["classes"; c; "assignments"; i; "comments"; j];
      ["classes"; c; "completionApprovals"; i];
      ["classes"; c; "subjects"; i];
      ["classes"; c; "experience"; i];
      ["classes"; c; "gallery"; i];
      ["classes"; c; "albums"; i];
      ["classes"; c; "featuredImages"; i];
      ["classes"; c; "galleryApprovals"; i] ].
Proof. destruct g, a; repeat constructor. Qed.

(** ** The two [isAdmin()] *)

(** What [isTeacher()] and the two [isAdmin()] say about the snapshot. *)
Lemma isTeacher_granted (st : store) (rq : request) (c : string) :
  granted (Current.isTeacher st rq c) = teacher_member st rq c.
Proof.
  unfold Current.isTeacher, teacher_member, member_exists, member_role, auth_uid,
    exists_doc, get_field, doc_field_is, field, eq_lit.
  destruct (auth rq) as [u|]; cbn; [|reflexivity].
  destruct (st !! member_path c u) as [m|]; cbn; [|reflexivity].
  destruct (m !! "role") as [v|]; cbn; [|reflexivity].
  now destruct (val_is_str v "teacher").
Qed.

Lemma isAdmin_granted_eq (st : store) (rq : request) (c u : string) :
  auth rq = Some u ->
  granted (Current.isAdmin st rq c)
  = doc_field_is (resource st rq) "createdBy" u
    || admin_member st rq c || teacher_member st rq c
  /\ granted (Legacy.isAdmin st rq c)
     = doc_field_is (resource st rq) "createdBy" u || admin_member st rq c.
Proof.
  intros Hu.
  unfold Current.isAdmin, Legacy.isAdmin, Current.is_resource_creator,
    Legacy.is_resource_creator, resource_field, auth_uid.
  rewrite Hu, !granted_or, !granted_str_eq_doc, <- !orb_assoc.
  unfold admin_member, teacher_member, member_exists, member_role, auth_uid,
    exists_doc, get_field, doc_field_is at 2 3 5, field, eq_lit.
  rewrite Hu. cbn [bind].
  destruct (st !! member_path c u) as [m|]; cbn; [|now split].
  destruct (m !! "role") as [v|]; cbn; [|now split].
  now destruct (val_is_str v "admin"), (val_is_str v "teacher").
Qed.

(** C6.  The two [isAdmin()] differ only in the role [teacher]: for an actor
    who has no Member record with role [teacher] they give the same result,
    and for an actor who has one the current one is true.  But the first
    test of both is [request.auth.uid == resource.data.createdBy], on the
    document of the request, and not a test on the class: for a teacher the
    legacy [isAdmin()] is true exactly when the actor is the [createdBy] of
    the requested document.  So carol, a teacher who did not create class
    [c1], is a legacy admin on the photo she created; and alice, who created
    class [c1] and is a teacher in it, is no legacy admin on the photo of
    dave, where the current [isAdmin()] is true. *)
Theorem isAdmin_generations_differ_on_teacher (st : store) (u : string)
    (o : operation) (p : docpath) (pr : option doc) (c : string) :
  (if teacher_member st (by_actor u o p pr) c
   then Current.isAdmin st (by_actor u o p pr) c = Ok true
        /\ granted (Legacy.isAdmin st (by_actor u o p pr) c)
           = doc_field_is (st !! p) "createdBy" u
   else Current.isAdmin st (by_actor u o p pr) c
        = Legacy.isAdmin st (by_actor u o p pr) c)
  /\ (class_owner demo_teachers "c1" "carol" = false
      /\ teacher_member demo_teachers
           (by_actor "carol" Update ["classes"; "c1"; "gallery"; "g2"] None) "c1" = true
      /\ Current.isAdmin demo_teachers
           (by_actor "carol" Update ["classes"; "c1"; "gallery"; "g2"] None) "c1"
         = Ok true
      /\ Legacy.isAdmin demo_teachers
           (by_actor "carol" Update ["classes"; "c1"; "gallery"; "g2"] None) "c1"
         = Ok true)
  /\ (class_owner demo_teachers "c1" "alice" = true
      /\ Current.isAdmin demo_teachers
           (by_actor "alice" Update ["classes"; "c1"; "gallery"; "g1"] None) "c1"
         = Ok true
      /\ Legacy.isAdmin demo_teachers
           (by_actor "alice" Update ["classes"; "c1"; "gallery"; "g1"] None) "c1"
         = Ok false).
Proof.
  split; [|split; repeat split; vm_compute; reflexivity].
  set (rq := by_actor u o p pr).
  destruct (isAdmin_granted_eq st rq c u eq_refl) as [_ L].
  change (resource st rq) with (st !! p) in L.
  destruct (teacher_member st rq c) eqn:T.
  - split.
    + unfold Current.isAdmin.
      assert (M : member_exists st rq c
                  &&& (eq_lit (member_role st rq c) "admin"
                       ||| eq_lit (member_role st rq c) "teacher") = Ok true).
      { revert T. unfold teacher_member, member_exists, member_role, auth_uid,
          exists_doc, get_field, doc_field_is, field, eq_lit, rq, by_actor.
        cbn [auth bind].
        destruct (st !! member_path c u) as [m|]; cbn; [|discriminate].
        destruct (m !! "role") as [v|]; cbn; [|discriminate].
        intros ->. now destruct (val_is_str v "admin"). }
      rewrite M. now destruct (Current.is_resource_creator st rq) as [[]|].
    + rewrite L. unfold admin_member, rq, by_actor. cbn [auth].
      revert T. unfold teacher_member, rq, by_actor, doc_field_is. cbn [auth].
      destruct (st !! member_path c u) as [m|]; [|discriminate].
      destruct (m !! "role") as [v|]; [|discriminate].
      intros H%val_is_str_true. subst v. cbn. apply orb_false_r.
  - unfold Current.isAdmin, Legacy.isAdmin.
    change (Legacy.is_resource_creator st rq) with (Current.is_resource_creator st rq).
    f_equal. revert T.
    unfold teacher_member, member_exists, member_role, auth_uid,
      exists_doc, get_field, doc_field_is, field, eq_lit, rq, by_actor.
    cbn [auth bind].
    destruct (st !! member_path c u) as [m|]; cbn; [|reflexivity].
    destruct (m !! "role") as [v|]; cbn; [|reflexivity].
    intros ->. now destruct (val_is_str v "admin").
Qed.

(** ** Lookups of missing documents *)

(** The test on the creator of a class whose document is missing does not
    hold: it is an evaluation error, for every actor. *)
Lemma is_class_creator_missing (st : store) (rq : request) (c : string) :
  st !! class_path c = None -> is_class_creator st rq c = Err.
Proof.
  intros H. unfold is_class_creator. rewrite get_field_missing by exact H.
  now destruct (auth_uid rq).
Qed.

(** C7, as stated, fails where another alternative of the predicate holds:
    the class [c9] is missing, the predicate of the delete of a Member
    record reads [get(class).data.createdBy], and carol deletes her own
    record all the same. *)
Lemma missing_class_own_member_delete_allowed :
  ~ (demo !! class_path "c9" = None ->
     decision current demo
       (by_actor "carol" Delete (member_path "c9" "carol") None) = false).
Proof.
  intros H. specialize (H ltac:(vm_compute; reflexivity)).
  vm_compute in H. discriminate H.
Qed.

(** C7, amended.  When the Subject is missing, [isTeacherForSubject] is
    false, and when the actor has no Member record [isTeacher()] is false:
    [exists] is false and nothing after it is an error of the whole.  When
    the class document is missing, the test on its [createdBy] never aborts
    a decision and never grants: a predicate that is this test alone (the
    legacy update and delete of a completion approval) is false, and a
    predicate that has other alternatives is decided by them alone: the
    [userId] of a Member record, the [createdBy] of an Assignment and of a
    Subject, the [userId] of a Comment, the user an Experience belongs to. *)
Theorem missing_document_fails_closed (g : generation) (st : store) (rq : request)
    (u c s i k : string) (o : operation) (pr : option doc) :
  (st !! subject_path c s = None ->
   Current.isTeacherForSubject st rq c s = Ok false)
  /\ (st !! member_path c u = None -> auth rq = Some u ->
      Current.isTeacher st rq c = Ok false)
  /\ (st !! class_path c = None ->
      update_or_delete o = true ->
      decision legacy st (by_actor u o (approval_path c i) pr) = false
      /\ decision g st (by_actor u o (member_path c i) pr)
         = doc_field_is (st !! member_path c i) "userId" u
      /\ decision g st (by_actor u Create (member_path c i) pr)
         = doc_field_is pr "userId" u
      /\ decision g st (by_actor u o (assignment_path c i) pr)
         = doc_field_is (st !! assignment_path c i) "createdBy" u
      /\ decision g st (by_actor u Delete (comment_path c i k) pr)
         = doc_field_is (st !! comment_path c i k) "userId" u
      /\ decision current st (by_actor u Update (subject_path c s) pr)
         = doc_field_is (st !! subject_path c s) "createdBy" u
           || granted (Current.isTeacherForSubject st
                         (by_actor u Update (subject_path c s) pr) c s)
      /\ decision g st (by_actor u Delete (subject_path c s) pr)
         = doc_field_is (st !! subject_path c s) "createdBy" u
      /\ decision g st (by_actor u Create (experience_path c i) pr)
         = String.eqb u i).
Proof.
  split; [|split].
  - intros Hs. unfold Current.isTeacherForSubject, exists_doc. now rewrite Hs.
  - intros Hm Hu. unfold Current.isTeacher, member_exists, exists_doc, auth_uid.
    rewrite Hu. cbn [bind]. now rewrite Hm.
  - intros Hc Ho.
    assert (E : forall r, is_class_creator st r c = Err)
      by (intros r; now apply is_class_creator_missing).
    assert (R : forall e, granted (Err ||| e) = granted e)
      by (intros e; now rewrite granted_or).
    assert (R' : forall e, granted (e ||| Err) = granted e)
      by (intros e; rewrite granted_or; apply orb_false_r).
    split; [|split; [|split; [|split; [|split; [|split; [|split]]]]]].
    + destruct o; try discriminate Ho; unfold by_actor;
        cbn -[lookup granted is_class_creator]; now rewrite E.
    + destruct o; try discriminate Ho; destruct g; unfold by_actor;
        cbn -[lookup granted str_eq is_class_creator resource_field];
        rewrite E, R, orb_false_r; unfold resource_field, resource;
        cbn [path]; apply granted_str_eq_doc.
    + destruct g; unfold by_actor;
        cbn -[lookup granted str_eq is_class_creator proposed_field];
        rewrite E, R, orb_false_r; unfold proposed_field; cbn [proposed];
        apply granted_str_eq_doc.
    + destruct o; try discriminate Ho; destruct g; unfold by_actor;
        cbn -[lookup granted str_eq is_class_creator resource_field];
        rewrite E, R', orb_false_r; unfold resource_field, resource;
        cbn [path]; apply granted_str_eq_doc.
    + destruct g; unfold by_actor;
        cbn -[lookup granted str_eq is_class_creator resource_field];
        rewrite E; cbn [granted]; rewrite !orb_false_r;
        unfold resource_field, resource; cbn [path]; apply granted_str_eq_doc.
    + unfold by_actor;
        cbn -[lookup granted str_eq is_class_creator resource_field
              Current.isTeacherForSubject];
        rewrite E, orb_false_r, granted_or, R'; unfold resource_field, resource;
        cbn [path]; now rewrite granted_str_eq_doc.
    + destruct g; unfold by_actor;
        cbn -[lookup granted str_eq is_class_creator resource_field];
        rewrite E, R', orb_false_r; unfold resource_field, resource;
        cbn [path]; apply granted_str_eq_doc.
    + destruct g; unfold by_actor;
        cbn -[lookup granted is_class_creator];
        rewrite E; cbn [granted]; rewrite !orb_false_r;
        now destruct (String.eqb u i).
Qed.

Lemma missing_document_fails_closed_witness :
  Current.isTeacherForSubject demo
    (by_actor "carol" Update (subject_path "c9" "s7") None) "c9" "s7" = Ok false
  /\ Current.isTeacher demo
       (by_actor "zoe" Update (subject_path "c9" "s7") None) "c9" = Ok false
  /\ decision legacy demo
       (by_actor "carol" Delete (approval_path "c9" "a1") None) = false
  /\ decision current demo
       (by_actor "carol" Delete (member_path "c9" "carol") None)
     = doc_field_is (demo !! member_path "c9" "carol") "userId" "carol".
Proof.
  destruct (missing_document_fails_closed current demo
              (by_actor "carol" Update (subject_path "c9" "s7") None)
              "carol" "c9" "s7" "a1" "k1" Delete None) as (H1 & _ & H3).
  destruct (missing_document_fails_closed current demo
              (by_actor "zoe" Update (subject_path "c9" "s7") None)
              "zoe" "c9" "s7" "carol" "k1" Delete None) as (_ & H2 & _).
  destruct (missing_document_fails_closed current demo
              (by_actor "carol" Update (subject_path "c9" "s7") None)
              "carol" "c9" "s7" "carol" "k1" Delete None) as (_ & _ & H4).
  split; [apply H1; vm_compute; reflexivity|].
  split; [apply H2; [vm_compute|]; reflexivity|].
  split.
  - apply H3; vm_compute; reflexivity.
  - apply H4; vm_compute; reflexivity.
Defined.

(** C5.  An update of a User document is decided by [allow write] alone:
    it is allowed exactly when the actor is the user, whatever the proposed
    data.  The profile owner's update that carries a [photoBase64] of
    1048577 characters is allowed, although the statement that checks the
    size does not grant it. *)
Theorem user_update_ignores_photo_size (g : generation) (st : store) :
  (forall (u w : string) (pr : option doc),
     decision g st (by_actor u Update (user_path w) pr) = String.eqb u w)
  /\ size_of (proposed_field
               (by_actor "alice" Update (user_path "alice") (Some oversized_photo))
               "photoBase64") = Ok 1048577%Z
  /\ match g with
     | current => Current.grants st
         (by_actor "alice" Update (user_path "alice") (Some oversized_photo))
         (Current.TUser "alice") Update
     | legacy => Legacy.grants st
         (by_actor "alice" Update (user_path "alice") (Some oversized_photo))
         (Legacy.TUser "alice") Update
     end !! 1%nat = Some (Ok false)
  /\ decision g st
       (by_actor "alice" Update (user_path "alice") (Some oversized_photo)) = true.
Proof.
  assert (E : forall u w pr,
            decision g st (by_actor u Update (user_path w) pr) = String.eqb u w).
  { intros u w pr. destruct g; eval_rules; cbn; now destruct (String.eqb u w). }
  assert (S : size_of (proposed_field
               (by_actor "alice" Update (user_path "alice") (Some oversized_photo))
               "photoBase64") = Ok 1048577%Z).
  { unfold proposed_field, by_actor, oversized_photo, field. cbn [proposed data bind].
    rewrite lookup_singleton_eq. cbn [size_of bind].
    rewrite length_filler, N_nat_Z. reflexivity. }
  split; [exact E|]. split; [exact S|]. split; [|now rewrite E].
  assert (K : has_key (data (Some oversized_photo)) "photoBase64" = Ok true).
  { unfold oversized_photo. cbn [has_key data bind]. now rewrite lookup_singleton_eq. }
  destruct g; cbn [Current.grants Legacy.grants lookup list_lookup by_actor proposed];
    fold (by_actor "alice" Update (user_path "alice") (Some oversized_photo));
    rewrite K, S; reflexivity.
Qed.

(** ** Completion approvals and subjects *)

(** The condition of the update and of the delete of a completion approval,
    test by test. *)
Lemma approval_decision (st : store) (u c a : string) (pr : option doc)
    (o : operation) :
  update_or_delete o = true ->
  decision current st (by_actor u o (approval_path c a) pr)
  = approval_authorized st (by_actor u o (approval_path c a) pr) c u.
Proof.
  intros Ho. unfold approval_authorized.
  destruct o; try discriminate Ho; unfold by_actor;
    cbn -[lookup granted str_eq str_in not_null is_class_creator
          Current.isAdmin Current.isTeacher resource_field doc_field_is listed_in];
    rewrite orb_false_r, !granted_or;
    unfold is_class_creator, get_field, resource_field, resource;
    cbn [path auth auth_uid];
    now rewrite granted_str_eq_doc, granted_guarded_in, !granted_guarded_eq.
Qed.





(** ** Scenarios on the sample snapshot *)

(** The creator deletes the class; a plain member and an admin do not. *)
Example class_delete_scenario :
  map (fun u => decision current demo (by_actor u Delete (class_path "c1") None))
    ["alice"; "bob"; "dave"]
  = [true; false; false].
Proof. vm_compute. reflexivity. Qed.

(** The grader updates the approval; a plain member who is named nowhere in
    it does not. *)
Example approval_update_scenario :
  map (fun u => decision current demo
                  (by_actor u Update (approval_path "c1" "a1") None))
    ["alice"; "bob"; "carol"; "dave"; "zoe"]
  = [true; true; true; true; false].
Proof. vm_compute. reflexivity. Qed.

(** Under the legacy rules only the creator of the class updates it. *)
Example legacy_approval_update_scenario :
  map (fun u => decision legacy demo
                  (by_actor u Update (approval_path "c1" "a1") None))
    ["alice"; "bob"; "carol"; "dave"; "zoe"]
  = [true; false; false; false; false].
Proof. vm_compute. reflexivity. Qed.

(** No photo is stored yet when one is created: the test on its [createdBy]
    is an error, and the creator of the class, the admin and the teacher
    create it through the other alternatives; a plain member does not. *)
Example gallery_create_scenario :
  map (fun u => decision current demo
                  (by_actor u Create (gallery_path "c1" "g7")
                     (Some (mkdoc [("createdBy", VStr u)]))))
    ["alice"; "bob"; "carol"; "dave"]
  = [true; true; true; false].
Proof. vm_compute. reflexivity. Qed.

(** Below the deleted class [c9] the grader still updates the approval and
    the teacher of the subject still updates it. *)
Example deleted_class_scenario :
  decision current demo (by_actor "dave" Update (approval_path "c9" "a1") None) = true
  /\ decision current demo (by_actor "carol" Update (subject_path "c9" "s1") None) = true
  /\ decision current demo (by_actor "carol" Delete (subject_path "c9" "s1") None) = false.
Proof. vm_compute. repeat split. Qed.

(** Dave is a plain member; [isAdmin()] holds for him on the gallery
    approval he created, and he updates it himself. *)
Example own_gallery_approval_scenario :
  Current.isAdmin demo_gallery
    (by_actor "dave" Update (gallery_approval_path "c1" "g1") None) "c1" = Ok true
  /\ class_owner demo_gallery "c1" "dave" = false
  /\ map (fun g => decision g demo_gallery
                     (by_actor "dave" Update (gallery_approval_path "c1" "g1") None))
       [current; legacy]
     = [true; true].
Proof. vm_compute. repeat split. Qed.

(** Dave deletes his comment, and so does the creator of the class. *)
Example comment_delete_scenario :
  map (fun u => decision current demo
                  (by_actor u Delete (comment_path "c1" "as1" "k1") None))
    ["alice"; "bob"; "dave"]
  = [true; false; true].
Proof. vm_compute. reflexivity. Qed.

(** * The rest of the rules *)

(** ** Path matching *)

Lemma current_resolve_path_of (t : Current.target) :
  Current.resolve (current_path_of t) = Some t.
Proof. destruct t; reflexivity. Qed.

Lemma legacy_resolve_path_of (t : Legacy.target) :
  Legacy.resolve (legacy_path_of t) = Some t.
Proof. destruct t; reflexivity. Qed.

Lemma current_resolve_inv (p : docpath) (t : Current.target) :
  Current.resolve p = Some t -> p = current_path_of t.
Proof.
  destruct p as [|a [|b [|c [|d [|e [|f [|x p]]]]]]]; cbn; try discriminate;
    split_segments; intros H; try discriminate H; now injection H as <-.
Qed.

Lemma legacy_resolve_inv (p : docpath) (t : Legacy.target) :
  Legacy.resolve p = Some t -> p = legacy_path_of t.
Proof.
  destruct p as [|a [|b [|c [|d [|e [|f [|x p]]]]]]]; cbn; try discriminate;
    split_segments; intros H; try discriminate H; now injection H as <-.
Qed.

(** X1.  Each block matches exactly the paths of its own shape: resolving a
    path gives a block and its path variables exactly when the path is the
    one that block and these variables spell, under both rule generations. *)
Theorem resolve_exact (p : docpath) :
  (forall t, Current.resolve p = Some t <-> p = current_path_of t)
  /\ (forall t, Legacy.resolve p = Some t <-> p = legacy_path_of t).
Proof.
  split; intros t; split.
  - apply current_resolve_inv.
  - intros ->. apply current_resolve_path_of.
  - apply legacy_resolve_inv.
  - intros ->. apply legacy_resolve_path_of.
Qed.

Lemma current_shape (t : Current.target) : matched_shape current (current_path_of t).
Proof.
  unfold matched_shape, class_collections.
  destruct t; cbn;
    try (left; eexists; reflexivity);
    try (right; left; eexists; reflexivity);
    try (right; right; left; do 3 eexists; split; [reflexivity | cbn; tauto]);
    try (right; right; right; left; do 3 eexists; reflexivity).
  right; right; right; right; left. split; [reflexivity | do 2 eexists; reflexivity].
Qed.

Lemma legacy_shape (t : Legacy.target) : matched_shape legacy (legacy_path_of t).
Proof.
  unfold matched_shape, class_collections.
  destruct t; cbn;
    try (left; eexists; reflexivity);
    try (right; left; eexists; reflexivity);
    try (right; right; left; do 3 eexists; split; [reflexivity | cbn; tauto]);
    try (right; right; right; left; do 3 eexists; reflexivity).
  right; right; right; right; right. split; [reflexivity | eexists; reflexivity].
Qed.

Lemma matched_shape_resolves (g : generation) (p : docpath) :
  matched_shape g p ->
  match g with
  | current => exists t, Current.resolve p = Some t
  | legacy => exists t, Legacy.resolve p = Some t
  end.
Proof.
  unfold matched_shape, class_collections.
  intros [[id ->] | [[id ->] | [(c & sub & id & -> & Hsub) | [(c & a & k & ->)
            | [(-> & u & k & ->) | (-> & m & ->)]]]]].
  - destruct g; eexists; reflexivity.
  - destruct g; eexists; reflexivity.
  - cbn in Hsub.
    repeat (destruct Hsub as [<- | Hsub]; [destruct g; eexists; reflexivity|]).
    destruct Hsub.
  - destruct g; eexists; reflexivity.
  - eexists; reflexivity.
  - eexists; reflexivity.
Qed.

Lemma allowed_matched (g : generation) (st : store) (rq : request) :
  decision g st rq = true -> matched_shape g (path rq).
Proof.
  destruct g; cbn [decision]; unfold Current.allowed, Legacy.allowed.
  - destruct (Current.resolve (path rq)) as [t|] eqn:E; [|discriminate].
    intros _. apply current_resolve_inv in E as ->. apply current_shape.
  - destruct (Legacy.resolve (path rq)) as [t|] eqn:E; [|discriminate].
    intros _. apply legacy_resolve_inv in E as ->. apply legacy_shape.
Qed.

(** X2.  Nothing is allowed outside the blocks: an allowed request names a
    class, a user, a document of one of the ten collections of a class, a
    comment of an assignment, a completed assignment of a user (current
    rules) or a root-level material (legacy rules).  In particular a block
    grants nothing for the documents nested below its own. *)
Theorem allowed_only_on_matched_paths (g : generation) (st : store) (rq : request) :
  decision g st rq = true -> matched_shape g (path rq).
Proof.
  destruct g; cbn [decision]; unfold Current.allowed, Legacy.allowed.
  - destruct (Current.resolve (path rq)) as [t|] eqn:E; [|discriminate].
    intros _. apply current_resolve_inv in E as ->. apply current_shape.
  - destruct (Legacy.resolve (path rq)) as [t|] eqn:E; [|discriminate].
    intros _. apply legacy_resolve_inv in E as ->. apply legacy_shape.
Qed.

Lemma allowed_only_on_matched_paths_witness :
  matched_shape current (class_path "c1").
Proof.
  apply (allowed_only_on_matched_paths current demo
           (by_actor "alice" Delete (class_path "c1") None)).
  vm_compute. reflexivity.
Defined.

(** X3.  The two generations differ in the collections they know: the
    root-level [aiMaterials] exist only for the legacy rules, which let every
    authenticated actor read and create them, and the current rules deny
    every request on them; the completed assignments of a user exist only
    for the current rules, which let every authenticated actor create them,
    and the legacy rules deny every request on them. *)
Theorem generation_only_collections (st : store) (u m w k : string)
    (o : operation) (pr : option doc) :
  decision current st (by_actor u o (root_material_path m) pr) = false
  /\ decision legacy st (by_actor u Read (root_material_path m) pr) = true
  /\ decision legacy st (by_actor u Create (root_material_path m) pr) = true
  /\ decision legacy st (by_actor u o (completed_path w k) pr) = false
  /\ decision current st (by_actor u Create (completed_path w k) pr) = true.
Proof. repeat split; reflexivity. Qed.

(** X4.  A read never looks at the snapshot or at the request's data, on any
    path and in both generations: it is allowed exactly when the path is
    matched by a block and, for a completed assignment, the actor is the
    user it belongs to. *)
Theorem read_decision (g : generation) (u : string) (p : docpath)
    (st1 st2 : store) (pr1 pr2 : option doc) :
  decision g st1 (by_actor u Read p pr1) = decision g st2 (by_actor u Read p pr2)
  /\ (decision g st1 (by_actor u Read p pr1) = true
      <-> matched_shape g p /\ forall w k, p = completed_path w k -> u = w).
Proof.
  assert (E : forall st pr,
    decision g st (by_actor u Read p pr) = true
    <-> matched_shape g p /\ forall w k, p = completed_path w k -> u = w).
  { intros st pr. split.
    - intros H. split; [exact (allowed_matched _ _ _ H)|].
      intros w k ->. destruct g; [|discriminate H].
      apply String.eqb_eq. rewrite <- H. symmetry.
      eval_rules; cbn; now destruct (String.eqb u w).
    - intros [Hs Hw]. apply matched_shape_resolves in Hs.
      destruct g; destruct Hs as [t Ht]; cbn [decision];
        unfold Current.allowed, Legacy.allowed, by_actor; cbn [path op]; rewrite Ht.
      + pose proof (current_resolve_inv _ _ Ht) as ->.
        destruct t; try reflexivity.
        rewrite (Hw userId completionId eq_refl).
        cbn. now rewrite String.eqb_refl.
      + destruct t; reflexivity. }
  split; [|apply E].
  destruct (decision g st1 (by_actor u Read p pr1)) eqn:H1.
  - symmetry. apply E. now apply (E st1 pr1).
  - symmetry. apply not_true_is_false. intros H2. apply (E st2 pr2) in H2.
    apply (E st1 pr1) in H2. congruence.
Qed.

(** X5.  A User document is written by the user alone and read by every
    authenticated actor: create, update and delete are allowed exactly when
    the actor's id is the document id, whatever is stored and whatever is
    proposed, under both rule generations. *)
Theorem user_document_decision (g : generation) (st : store) (u w : string)
    (o : operation) (pr : option doc) :
  decision g st (by_actor u o (user_path w) pr)
  = match o with
    | Read => true
    | Create | Update | Delete => String.eqb u w
    end.
Proof.
  destruct g, o; eval_rules; cbn; try reflexivity; now destruct (String.eqb u w).
Qed.

(** ** From the legacy rules to the current ones *)

Lemma legacy_isAdmin_current (st : store) (rq : request) (c : string) :
  Legacy.isAdmin st rq c = Ok true -> Current.isAdmin st rq c = Ok true.
Proof.
  unfold Legacy.isAdmin, Current.isAdmin.
  change (Legacy.is_resource_creator st rq) with (Current.is_resource_creator st rq).
  destruct (Current.is_resource_creator st rq) as [[]|],
    (member_exists st rq c) as [[]|],
    (eq_lit (member_role st rq c) "admin") as [[]|]; cbn; try discriminate;
    try reflexivity.
  all: now destruct (eq_lit (member_role st rq c) "teacher") as [[]|].
Qed.

Lemma granted_and_inv (a b : eval bool) :
  granted (a &&& b) = true -> a = Ok true /\ b = Ok true.
Proof. destruct a as [[]|], b as [[]|]; cbn; try discriminate; auto. Qed.

Lemma granted_guard_weaken (a b b' : eval bool) :
  (b = Ok true -> b' = Ok true) ->
  granted (a &&& b) || false = true -> granted (a &&& b') || false = true.
Proof.
  intros Hb. rewrite !orb_false_r. intros [-> Hb']%granted_and_inv.
  now rewrite (Hb Hb').
Qed.

Lemma or_true_l (a b : eval bool) : a = Ok true -> a ||| b = Ok true.
Proof. now intros ->. Qed.

Lemma or_true_swap (a b b' : eval bool) :
  (b = Ok true -> b' = Ok true) -> a ||| b = Ok true -> a ||| b' = Ok true.
Proof.
  destruct a as [[]|], b as [[]|]; cbn; try discriminate; try reflexivity; auto.
  all: intros H _; now rewrite H.
Qed.

(** X6.  The current rules only widen the legacy ones: whatever the legacy
    rules allow on a path other than a root-level material, the current
    rules allow on the same snapshot. *)
Theorem legacy_allowed_current_allowed (st : store) (rq : request) :
  decision legacy st rq = true ->
  (forall m, path rq <> root_material_path m) ->
  decision current st rq = true.
Proof.
  destruct rq as [a o p pr]. cbn [decision]. unfold Legacy.allowed, Current.allowed.
  cbn [path op].
  destruct (Legacy.resolve p) as [t|] eqn:E; [|discriminate].
  apply legacy_resolve_inv in E as ->. intros H Hroot.
  destruct t; cbn [legacy_path_of] in *;
    try (exfalso; now apply (Hroot materialId));
    match goal with
    | |- context [Current.resolve ?q] =>
        let r := eval cbv in (Current.resolve q) in
        change (Current.resolve q) with r
    end; cbv beta iota.
  all: destruct o; try exact H.
  1: { (* class materials, update *)
       cbn in H |- *. destruct a; [reflexivity | discriminate H]. }
  1,2: (* completion approvals, update and delete *)
    revert H; apply granted_guard_weaken; intros H;
    now rewrite !(or_true_l _ _ H).
  1: { (* subjects, update *)
       revert H. apply granted_guard_weaken. apply or_true_l. }
  (* gallery, albums, featured images, gallery approvals *)
  all: revert H; apply granted_guard_weaken;
    apply or_true_swap, legacy_isAdmin_current.
Qed.

Lemma legacy_allowed_current_allowed_witness :
  decision current demo (by_actor "alice" Update (approval_path "c1" "a1") None) = true.
Proof.
  apply (legacy_allowed_current_allowed demo
           (by_actor "alice" Update (approval_path "c1" "a1") None)).
  - vm_compute. reflexivity.
  - intros m. cbn. discriminate.
Defined.

(** ** Member records and roles *)

Lemma member_conditions (g : generation) (st : store) (u c mid : string)
    (pr : option doc) :
  no_error (get_field st (class_path c) "createdBy") ->
  decision g st (by_actor u Create (member_path c mid) pr)
  = doc_field_is (st !! class_path c) "createdBy" u || doc_field_is pr "userId" u
  /\ decision g st (by_actor u Update (member_path c mid) pr)
     = doc_field_is (st !! class_path c) "createdBy" u
       || doc_field_is (st !! member_path c mid) "userId" u
  /\ decision g st (by_actor u Delete (member_path c mid) pr)
     = doc_field_is (st !! class_path c) "createdBy" u
       || doc_field_is (st !! member_path c mid) "userId" u.
Proof.
  intros _.
  repeat split; destruct g; eval_rules; unfold proposed_field; cbn [proposed];
    now rewrite granted_or, !granted_str_eq_doc.
Qed.

(** X7.  When the class document exists and has a [createdBy] field, a
    Member record is created exactly by the creator of the class or by an
    actor who writes his own id in [userId], and updated or deleted exactly
    by the creator of the class or by the actor named in the stored
    [userId], under both rule generations.  The document id of the record
    is compared with nothing. *)
Theorem member_decision (g : generation) (st : store) (u c mid : string)
    (pr : option doc) :
  no_error (get_field st (class_path c) "createdBy") ->
  decision g st (by_actor u Create (member_path c mid) pr)
  = doc_field_is (st !! class_path c) "createdBy" u || doc_field_is pr "userId" u
  /\ decision g st (by_actor u Update (member_path c mid) pr)
     = doc_field_is (st !! class_path c) "createdBy" u
       || doc_field_is (st !! member_path c mid) "userId" u
  /\ decision g st (by_actor u Delete (member_path c mid) pr)
     = doc_field_is (st !! class_path c) "createdBy" u
       || doc_field_is (st !! member_path c mid) "userId" u.
Proof.
  intros _.
  repeat split; destruct g; eval_rules; unfold proposed_field; cbn [proposed];
    now rewrite granted_or, !granted_str_eq_doc.
Qed.

Lemma member_decision_witness :
  decision current demo (by_actor "zoe" Create (member_path "c1" "anything")
                           (Some (mkdoc [("userId", VStr "zoe"); ("role", VStr "admin")])))
  = true.
Proof.
  destruct (member_decision current demo "zoe" "c1" "anything"
              (Some (mkdoc [("userId", VStr "zoe"); ("role", VStr "admin")])))
    as [H _]; [vm_compute; discriminate|].
  rewrite H. vm_compute. reflexivity.
Defined.

(** X8.  The rules never look at the role a Member record is given.  The
    decision on a create depends on the proposed document through its
    [userId] alone, and the decision on an update or a delete does not
    depend on the proposed document at all, under both rule generations. *)
Theorem member_write_ignores_role (g : generation) (st : store) (u c mid : string)
    (pr1 pr2 : option doc) :
  (pr1 ≫= (.!! "userId") = pr2 ≫= (.!! "userId") ->
   decision g st (by_actor u Create (member_path c mid) pr1)
   = decision g st (by_actor u Create (member_path c mid) pr2))
  /\ decision g st (by_actor u Update (member_path c mid) pr1)
     = decision g st (by_actor u Update (member_path c mid) pr2)
  /\ decision g st (by_actor u Delete (member_path c mid) pr1)
     = decision g st (by_actor u Delete (member_path c mid) pr2).
Proof.
  split; [|split; destruct g; reflexivity].
  intros H.
  assert (E : proposed_field (by_actor u Create (member_path c mid) pr1) "userId"
              = proposed_field (by_actor u Create (member_path c mid) pr2) "userId").
  { unfold proposed_field, by_actor, field. cbn [proposed].
    destruct pr1 as [d1|], pr2 as [d2|]; cbn in *; try reflexivity.
    - now rewrite H.
    - now rewrite H.
    - now rewrite <- H. }
  destruct g; unfold by_actor in *; cbn -[lookup granted str_eq proposed_field];
    now rewrite E.
Qed.

Lemma member_write_ignores_role_witness :
  decision current demo
    (by_actor "zoe" Create (member_path "c1" "zoe")
       (Some (mkdoc [("userId", VStr "zoe"); ("role", VStr "member")])))
  = decision current demo
      (by_actor "zoe" Create (member_path "c1" "zoe")
         (Some (mkdoc [("userId", VStr "zoe"); ("role", VStr "admin")]))).
Proof.
  destruct (member_write_ignores_role current demo "zoe" "c1" "zoe"
              (Some (mkdoc [("userId", VStr "zoe"); ("role", VStr "member")]))
              (Some (mkdoc [("userId", VStr "zoe"); ("role", VStr "admin")])))
    as [H _].
  apply H. vm_compute. reflexivity.
Defined.

Lemma isTeacher_true (st : store) (rq : request) (c : string) :
  Current.isTeacher st rq c = Ok true <-> teacher_member st rq c = true.
Proof.
  unfold Current.isTeacher, teacher_member, member_exists, member_role, auth_uid,
    exists_doc, get_field, doc_field_is, field, eq_lit.
  destruct (auth rq) as [u|]; cbn; [|split; discriminate].
  destruct (st !! member_path c u) as [m|]; cbn; [|split; discriminate].
  destruct (m !! "role") as [v|]; cbn; [|split; discriminate].
  split; [now intros [= ->] | now intros ->].
Qed.

(** X9.  Membership is self-service and so is the role.  When the class
    document exists and has a [createdBy] field, any authenticated actor may
    create the Member record [members/{uid}] with his own [userId] and the
    role [teacher]; once it is stored [isTeacher()] holds for him, and he may
    update and delete every completion approval of the class that has a
    [createdBy] field. *)
Theorem self_made_teacher (st : store) (u c a : string) (d ad : doc)
    (pr : option doc) :
  no_error (get_field st (class_path c) "createdBy") ->
  d !! "userId" = Some (VStr u) ->
  d !! "role" = Some (VStr "teacher") ->
  st !! approval_path c a = Some ad ->
  is_Some (ad !! "createdBy") ->
  decision current st (by_actor u Create (member_path c u) (Some d)) = true
  /\ Current.isTeacher (<[member_path c u := d]> st)
       (by_actor u Update (approval_path c a) pr) c = Ok true
  /\ decision current (<[member_path c u := d]> st)
       (by_actor u Update (approval_path c a) pr) = true
  /\ decision current (<[member_path c u := d]> st)
       (by_actor u Delete (approval_path c a) pr) = true.
Proof.
  intros Hc Hu Hr Ha [v Hv].
  set (st' := <[member_path c u := d]> st).
  assert (Lc : st' !! class_path c = st !! class_path c)
    by (apply lookup_insert_ne; discriminate).
  assert (La : st' !! approval_path c a = Some ad)
    by (unfold st'; rewrite lookup_insert_ne by discriminate; exact Ha).
  assert (Lm : st' !! member_path c u = Some d) by apply lookup_insert_eq.
  assert (T : forall o, teacher_member st' (by_actor u o (approval_path c a) pr) c = true).
  { intros o. unfold teacher_member, by_actor, doc_field_is. cbn [auth].
    now rewrite Lm, Hr. }
  assert (W : forall o, update_or_delete o = true ->
            decision current st' (by_actor u o (approval_path c a) pr) = true).
  { intros o Ho. rewrite (approval_decision st' u c a pr o Ho).
    unfold approval_authorized. rewrite isTeacher_granted, T.
    now rewrite orb_true_r. }
  split; [|split; [|split]].
  - destruct (member_conditions current st u c u (Some d) Hc) as [-> _].
    unfold doc_field_is at 2. rewrite Hu. cbn. rewrite String.eqb_refl.
    apply orb_true_r.
  - apply isTeacher_true, T.
  - now apply W.
  - now apply W.
Qed.

Lemma self_made_teacher_witness :
  decision current demo
    (by_actor "zoe" Update (approval_path "c1" "a1") None) = false
  /\ decision current
       (<[member_path "c1" "zoe" :=
            mkdoc [("userId", VStr "zoe"); ("role", VStr "teacher")]]> demo)
       (by_actor "zoe" Update (approval_path "c1" "a1") None) = true.
Proof.
  split; [vm_compute; reflexivity|].
  apply (self_made_teacher demo "zoe" "c1" "a1"
           (mkdoc [("userId", VStr "zoe"); ("role", VStr "teacher")])
           (mkdoc [("userId", VStr "erin"); ("createdBy", VStr "erin");
                   ("status", VStr "pending");
                   ("subjectTeachers", VList [VStr "carol"]);
                   ("approvedBy", VNull); ("gradedBy", VStr "dave")])
           None).
  - vm_compute. discriminate.
  - vm_compute. reflexivity.
  - vm_compute. reflexivity.
  - vm_compute. reflexivity.
  - exists (VStr "erin"). vm_compute. reflexivity.
Defined.

Lemma isTeacher_reads_member (st st' : store) (rq : request) (c u : string) :
  auth rq = Some u ->
  st !! member_path c u = st' !! member_path c u ->
  Current.isTeacher st rq c = Current.isTeacher st' rq c.
Proof.
  intros Hu Hm.
  unfold Current.isTeacher, member_exists, member_role, auth_uid, exists_doc, get_field.
  now rewrite Hu; cbn [bind]; rewrite Hm.
Qed.

Lemma isAdmin_reads_member (st st' : store) (rq : request) (c u : string) :
  auth rq = Some u ->
  st !! member_path c u = st' !! member_path c u ->
  st !! path rq = st' !! path rq ->
  Current.isAdmin st rq c = Current.isAdmin st' rq c
  /\ Legacy.isAdmin st rq c = Legacy.isAdmin st' rq c.
Proof.
  intros Hu Hm Hp.
  unfold Current.isAdmin, Legacy.isAdmin, Current.is_resource_creator,
    Legacy.is_resource_creator, resource_field, resource,
    member_exists, member_role, auth_uid, exists_doc, get_field.
  now rewrite Hu; cbn [bind]; rewrite Hm, Hp.
Qed.

(** X10.  The role of an actor is read from the Member record whose document
    id is the actor's own id and from nowhere else: two snapshots that agree
    on [members/{uid}] (and, for [isAdmin()], on the requested document) give
    the same [isTeacher()] and [isAdmin()].  So a Member record stored under
    any other document id gives its user no role, whatever its [userId] and
    [role] say. *)
Theorem role_read_from_own_member_record (st : store) (rq : request)
    (c u mid : string) (d : doc) :
  auth rq = Some u ->
  mid <> u ->
  path rq <> member_path c mid ->
  Current.isTeacher (<[member_path c mid := d]> st) rq c = Current.isTeacher st rq c
  /\ Current.isAdmin (<[member_path c mid := d]> st) rq c = Current.isAdmin st rq c
  /\ Legacy.isAdmin (<[member_path c mid := d]> st) rq c = Legacy.isAdmin st rq c
  /\ (st !! member_path c u = None ->
      Current.isTeacher (<[member_path c mid := d]> st) rq c = Ok false).
Proof.
  intros Hu Hmid Hp.
  assert (Lm : <[member_path c mid := d]> st !! member_path c u
               = st !! member_path c u).
  { apply lookup_insert_ne. unfold member_path. congruence. }
  assert (Lp : <[member_path c mid := d]> st !! path rq = st !! path rq).
  { apply lookup_insert_ne. congruence. }
  destruct (isAdmin_reads_member _ st rq c u Hu Lm Lp) as [A1 A2].
  repeat split; try assumption.
  - now apply isTeacher_reads_member with u.
  - intros Hnone. rewrite (isTeacher_reads_member _ st rq c u Hu Lm).
    unfold Current.isTeacher, member_exists, auth_uid, exists_doc.
    now rewrite Hu; cbn [bind]; rewrite Hnone.
Qed.

Lemma role_read_from_own_member_record_witness :
  Current.isTeacher
    (<[member_path "c1" "key7" :=
         mkdoc [("userId", VStr "zoe"); ("role", VStr "teacher")]]> demo)
    (by_actor "zoe" Update (approval_path "c1" "a1") None) "c1" = Ok false.
Proof.
  apply (role_read_from_own_member_record demo
           (by_actor "zoe" Update (approval_path "c1" "a1") None)
           "c1" "zoe" "key7").
  - reflexivity.
  - discriminate.
  - cbn. discriminate.
  - vm_compute. reflexivity.
Defined.

(** X11.  Roles follow the store with no memory.  Once the Member record
    [members/{uid}] is stored with a [role] field, [isTeacher()] is true
    exactly when that role is [teacher]; once the record is deleted,
    [isTeacher()] is false and [isAdmin()] is back to its ownership test
    alone. *)
Theorem role_granted_then_revoked (st : store) (rq : request) (c u : string)
    (d : doc) (r : value) :
  auth rq = Some u ->
  d !! "role" = Some r ->
  path rq <> member_path c u ->
  Current.isTeacher (<[member_path c u := d]> st) rq c = Ok (val_is_str r "teacher")
  /\ Current.isTeacher (delete (member_path c u) (<[member_path c u := d]> st)) rq c
     = Ok false
  /\ Current.isAdmin (delete (member_path c u) (<[member_path c u := d]> st)) rq c
     = Current.is_resource_creator st rq
  /\ Legacy.isAdmin (delete (member_path c u) (<[member_path c u := d]> st)) rq c
     = Legacy.is_resource_creator st rq.
Proof.
  intros Hu Hr Hp.
  assert (Lp : delete (member_path c u) (<[member_path c u := d]> st) !! path rq
               = st !! path rq).
  { rewrite lookup_delete_ne by congruence. apply lookup_insert_ne. congruence. }
  split; [|split; [|split]].
  - unfold Current.isTeacher, member_exists, member_role, auth_uid, exists_doc,
      get_field, field, eq_lit.
    rewrite Hu; cbn [bind]. rewrite lookup_insert_eq. cbn. now rewrite Hr.
  - unfold Current.isTeacher, member_exists, auth_uid, exists_doc.
    rewrite Hu; cbn [bind]. now rewrite lookup_delete_eq.
  - unfold Current.isAdmin, Current.is_resource_creator, resource_field, resource,
      member_exists, auth_uid, exists_doc.
    rewrite Hu; cbn [bind]. rewrite lookup_delete_eq, Lp. cbn [and_then].
    now destruct (str_eq _ _) as [[]|].
  - unfold Legacy.isAdmin, Legacy.is_resource_creator, resource_field, resource,
      member_exists, auth_uid, exists_doc.
    rewrite Hu; cbn [bind]. rewrite lookup_delete_eq, Lp. cbn [and_then].
    now destruct (str_eq _ _) as [[]|].
Qed.

Lemma role_granted_then_revoked_witness :
  Current.isTeacher
    (<[member_path "c1" "zoe" := mkdoc [("role", VStr "teacher")]]> demo)
    (by_actor "zoe" Update (approval_path "c1" "a1") None) "c1" = Ok true
  /\ Current.isTeacher
       (delete (member_path "c1" "zoe")
          (<[member_path "c1" "zoe" := mkdoc [("role", VStr "teacher")]]> demo))
       (by_actor "zoe" Update (approval_path "c1" "a1") None) "c1" = Ok false.
Proof.
  destruct (role_granted_then_revoked demo
              (by_actor "zoe" Update (approval_path "c1" "a1") None)
              "c1" "zoe" (mkdoc [("role", VStr "teacher")]) (VStr "teacher"))
    as (H1 & H2 & _).
  - reflexivity.
  - vm_compute. reflexivity.
  - cbn. discriminate.
  - split; [exact H1 | exact H2].
Defined.

Lemma and_true (a b : eval bool) :
  a &&& b = Ok true <-> a = Ok true /\ b = Ok true.
Proof.
  destruct a as [[]|], b as [[]|]; cbn; split; try discriminate; auto;
    intros [H1 H2]; discriminate.
Qed.

Lemma granted_true (e : eval bool) : granted e = true <-> e = Ok true.
Proof. destruct e as [[]|]; cbn; split; try discriminate; auto. Qed.

(** X12.  [isTeacherForSubject] is true exactly when the Subject exists, the
    actor has a Member record of the class with role [teacher], and the
    actor is listed in the subject's [teachers].  Being listed gives nothing
    to an actor who does not have the teacher role. *)
Theorem isTeacherForSubject_true (st : store) (rq : request) (c s : string) :
  (Current.isTeacherForSubject st rq c s = Ok true
   <-> exists u, auth rq = Some u
                 /\ teacher_member st rq c = true
                 /\ listed_in (st !! subject_path c s) "teachers" u = true)
  /\ (teacher_member st rq c = false ->
      granted (Current.isTeacherForSubject st rq c s) = false).
Proof.
  assert (E : Current.isTeacherForSubject st rq c s = Ok true
              <-> exists u, auth rq = Some u
                            /\ teacher_member st rq c = true
                            /\ listed_in (st !! subject_path c s) "teachers" u = true).
  { unfold Current.isTeacherForSubject. split.
    - intros H. apply and_true in H as [H Hi]. apply and_true in H as [H Hn].
      apply and_true in H as [_ Ht]. apply isTeacher_true in Ht.
      assert (Ha : exists u, auth rq = Some u).
      { unfold teacher_member in Ht. destruct (auth rq) as [u|]; [eauto | discriminate]. }
      destruct Ha as [u Hu]. exists u. repeat split; [exact Hu | exact Ht |].
      pose proof (proj2 (and_true _ _) (conj Hn Hi)) as Hl.
      unfold auth_uid in Hl. rewrite Hu in Hl. unfold get_field in Hl.
      now rewrite <- granted_guarded_in, granted_true.
    - intros (u & Hu & Ht & Hl).
      assert (Hni : not_null (get_field st (subject_path c s) "teachers")
                    &&& str_in (auth_uid rq) (get_field st (subject_path c s) "teachers")
                    = Ok true).
      { unfold auth_uid. rewrite Hu. unfold get_field.
        now rewrite <- granted_true, granted_guarded_in. }
      apply and_true in Hni as [Hn Hi].
      apply and_true; split; [apply and_true; split; [apply and_true; split|]|];
        [| now apply isTeacher_true | exact Hn | exact Hi].
      unfold exists_doc. unfold listed_in in Hl.
      now destruct (st !! subject_path c s). }
  split; [exact E|].
  intros Ht. apply not_true_is_false. intros H.
  apply granted_true, E in H as (u & _ & H & _). congruence.
Qed.

Lemma isTeacherForSubject_true_witness :
  granted (Current.isTeacherForSubject demo
             (by_actor "dave" Update (subject_path "c1" "s1") None) "c1" "s1") = false.
Proof.
  apply (isTeacherForSubject_true demo
           (by_actor "dave" Update (subject_path "c1" "s1") None) "c1" "s1").
  vm_compute. reflexivity.
Defined.

(** ** Comments, approvals, experience *)

(** X13.  A Comment is updated by its author alone, under both rule
    generations: the update is allowed exactly when the actor is the
    [userId] of the stored comment.  The creator of the class, who may
    delete any comment of an existing class, may not edit one that is not
    his own. *)
Theorem comment_update_author_only (g : generation) (st : store)
    (u c a k : string) (pr : option doc) :
  decision g st (by_actor u Update (comment_path c a k) pr)
  = doc_field_is (st !! comment_path c a k) "userId" u
  /\ (doc_field_is (st !! class_path c) "createdBy" u = true ->
      doc_field_is (st !! comment_path c a k) "userId" u = false ->
      decision g st (by_actor u Delete (comment_path c a k) pr) = true
      /\ decision g st (by_actor u Update (comment_path c a k) pr) = false).
Proof.
  assert (E : decision g st (by_actor u Update (comment_path c a k) pr)
              = doc_field_is (st !! comment_path c a k) "userId" u).
  { destruct g; eval_rules; apply granted_str_eq_doc. }
  split; [exact E|]. intros Ho Hn. split; [|now rewrite E].
  destruct g; eval_rules; rewrite !granted_str_eq_doc, Ho; apply orb_true_r.
Qed.

Lemma comment_update_author_only_witness :
  decision current demo (by_actor "alice" Delete (comment_path "c1" "as1" "k1") None)
  = true
  /\ decision current demo (by_actor "alice" Update (comment_path "c1" "as1" "k1") None)
     = false.
Proof.
  apply (comment_update_author_only current demo "alice" "c1" "as1" "k1" None);
    vm_compute; reflexivity.
Defined.

(** X14.  An approval request is created in the actor's own name only: a
    CompletionApproval exactly when the proposed [userId] is the actor's id,
    a GalleryApproval exactly when the proposed [createdBy] is, whatever the
    snapshot holds and under both rule generations. *)
Theorem approval_created_in_own_name (g : generation) (st : store)
    (u c a : string) (pr : option doc) :
  decision g st (by_actor u Create (approval_path c a) pr)
  = doc_field_is pr "userId" u
  /\ decision g st (by_actor u Create (gallery_approval_path c a) pr)
     = doc_field_is pr "createdBy" u.
Proof.
  split; destruct g; eval_rules; unfold proposed_field; cbn [proposed];
    apply granted_str_eq_doc.
Qed.

(** X15.  Under the legacy rules a CompletionApproval is updated and deleted
    by the creator of the class alone: whoever is named in the approval, and
    whatever role the actor has, the decision is allow exactly when the
    class document names the actor in [createdBy]. *)
Theorem legacy_approval_write_class_creator_only (st : store) (u c a : string)
    (pr : option doc) :
  decision legacy st (by_actor u Update (approval_path c a) pr)
  = doc_field_is (st !! class_path c) "createdBy" u
  /\ decision legacy st (by_actor u Delete (approval_path c a) pr)
     = doc_field_is (st !! class_path c) "createdBy" u.
Proof. split; eval_rules; apply granted_str_eq_doc. Qed.

(** X16.  An experience record is created and updated exactly by the user
    whose id is the document id or by the creator of the class, and nobody
    may delete one, not even the creator of the class, under both rule
    generations. *)
Theorem experience_decision (g : generation) (st : store) (u c w : string)
    (pr : option doc) :
  decision g st (by_actor u Create (experience_path c w) pr)
  = String.eqb u w || doc_field_is (st !! class_path c) "createdBy" u
  /\ decision g st (by_actor u Update (experience_path c w) pr)
     = String.eqb u w || doc_field_is (st !! class_path c) "createdBy" u
  /\ decision g st (by_actor u Delete (experience_path c w) pr) = false.
Proof.
  repeat split; destruct g; try reflexivity; eval_rules;
    rewrite granted_str_eq_doc; cbn; now destruct (String.eqb u w).
Qed.

(** X17.  A completed assignment of a user (current rules) is read by that
    user alone, created by any authenticated actor for any user, deleted by
    nobody, and updated only by an actor the stored record names in
    [approvedBy], [teacherId] or [gradedBy]; being named in [approvedBy] is
    enough.  The user it belongs to has no right to update it as such. *)
Theorem completed_assignment_decision (st : store) (u w k : string)
    (pr : option doc) :
  decision current st (by_actor u Read (completed_path w k) pr) = String.eqb u w
  /\ decision current st (by_actor u Create (completed_path w k) pr) = true
  /\ decision current st (by_actor u Delete (completed_path w k) pr) = false
  /\ (decision current st (by_actor u Update (completed_path w k) pr) = true ->
      doc_field_is (st !! completed_path w k) "approvedBy" u
      || doc_field_is (st !! completed_path w k) "teacherId" u
      || doc_field_is (st !! completed_path w k) "gradedBy" u = true)
  /\ (doc_field_is (st !! completed_path w k) "approvedBy" u = true ->
      decision current st (by_actor u Update (completed_path w k) pr) = true).
Proof.
  split; [|split; [|split; [|split]]]; try reflexivity.
  - eval_rules. cbn. now destruct (String.eqb u w).
  - eval_rules. now rewrite !granted_or, !granted_str_eq_doc.
  - eval_rules. rewrite <- granted_str_eq_doc.
    now destruct (str_eq (Ok u) _) as [[]|].
Qed.

Lemma completed_assignment_decision_witness :
  decision current
    (<[completed_path "erin" "k1" := mkdoc [("approvedBy", VStr "dave")]]> demo)
    (by_actor "dave" Update (completed_path "erin" "k1") None) = true.
Proof.
  apply (completed_assignment_decision
           (<[completed_path "erin" "k1" := mkdoc [("approvedBy", VStr "dave")]]> demo)
           "dave" "erin" "k1" None).
  vm_compute. reflexivity.
Defined.

(** ** Assignments and materials *)

(** X18.  An Assignment is updated and deleted only by its creator or by the
    creator of the class, under both rule generations.  Its creator always
    may, whatever became of the class document; and when the stored
    assignment has a [createdBy] field the decision is exactly that
    alternative. *)
Theorem assignment_write_decision (g : generation) (st : store) (u c i : string)
    (pr : option doc) (o : operation) :
  update_or_delete o = true ->
  (decision g st (by_actor u o (assignment_path c i) pr) = true ->
   doc_field_is (st !! assignment_path c i) "createdBy" u
   || doc_field_is (st !! class_path c) "createdBy" u = true)
  /\ (doc_field_is (st !! assignment_path c i) "createdBy" u = true ->
      decision g st (by_actor u o (assignment_path c i) pr) = true)
  /\ (no_error (get_field st (assignment_path c i) "createdBy") ->
      decision g st (by_actor u o (assignment_path c i) pr)
      = doc_field_is (st !! assignment_path c i) "createdBy" u
        || doc_field_is (st !! class_path c) "createdBy" u).
Proof.
  intros Ho.
  assert (E : decision g st (by_actor u o (assignment_path c i) pr)
              = granted (str_eq (Ok u) (get_field st (assignment_path c i) "createdBy")
                         ||| str_eq (Ok u) (get_field st (class_path c) "createdBy"))).
  { destruct o; try discriminate Ho; destruct g; eval_rules; reflexivity. }
  rewrite E. unfold get_field. rewrite granted_or, !granted_str_eq_doc.
  split; [|split].
  - auto.
  - now intros ->.
  - reflexivity.
Qed.

Lemma assignment_write_decision_witness :
  decision current
    (<[assignment_path "c9" "as1" := mkdoc [("createdBy", VStr "dave")]]> demo)
    (by_actor "dave" Delete (assignment_path "c9" "as1") None) = true.
Proof.
  destruct (assignment_write_decision current
              (<[assignment_path "c9" "as1" := mkdoc [("createdBy", VStr "dave")]]> demo)
              "dave" "c9" "as1" None Delete eq_refl) as (_ & H & _).
  apply H. vm_compute. reflexivity.
Defined.

Lemma granted_str_eq_subdoc (d : option doc) (f g u : string) :
  granted (str_eq (Ok u) (do c <- (do m <- data d; field f m); subfield g c))
  = doc_subfield_is d f g u.
Proof.
  unfold doc_subfield_is, field, subfield. destruct d as [m|]; cbn; [|reflexivity].
  destruct (m !! f) as [v|]; cbn; [|reflexivity].
  destruct v; cbn; try reflexivity. unfold field.
  destruct (m0 !! g); cbn; [|reflexivity]. now destruct (val_is_str _ _).
Qed.

(** X19.  A material of a class is updated by every authenticated actor under
    the current rules, whoever created it.  It is deleted (and, under the
    legacy rules, updated) only by the actor named in the [uid] of its
    [createdBy] map or by the creator of the class, and the former always
    may. *)
Theorem class_material_decision (st : store) (u c m : string) (pr : option doc) :
  decision current st (by_actor u Update (material_path c m) pr) = true
  /\ (forall g o,
        (g = current /\ o = Delete) \/ (g = legacy /\ update_or_delete o = true) ->
        (decision g st (by_actor u o (material_path c m) pr) = true ->
         doc_subfield_is (st !! material_path c m) "createdBy" "uid" u
         || doc_field_is (st !! class_path c) "createdBy" u = true)
        /\ (doc_subfield_is (st !! material_path c m) "createdBy" "uid" u = true ->
            decision g st (by_actor u o (material_path c m) pr) = true)).
Proof.
  split; [reflexivity|]. intros g o Hgo.
  assert (E : decision g st (by_actor u o (material_path c m) pr)
              = granted (str_eq (Ok u)
                           (do x <- (do d <- data (st !! material_path c m);
                                     field "createdBy" d);
                            subfield "uid" x)
                         ||| str_eq (Ok u) (get_field st (class_path c) "createdBy"))).
  { destruct Hgo as [[-> ->] | [-> Ho]]; [|destruct o; try discriminate Ho];
      eval_rules; reflexivity. }
  rewrite E. unfold get_field. rewrite granted_or, granted_str_eq_subdoc, granted_str_eq_doc.
  split.
  - auto.
  - now intros ->.
Qed.

Lemma class_material_decision_witness :
  decision current
    (<[material_path "c1" "m1" :=
         mkdoc [("createdBy", VMap {[ "uid" := VStr "dave" ]})]]> demo)
    (by_actor "dave" Delete (material_path "c1" "m1") None) = true.
Proof.
  destruct (class_material_decision
              (<[material_path "c1" "m1" :=
                   mkdoc [("createdBy", VMap {[ "uid" := VStr "dave" ]})]]> demo)
              "dave" "c1" "m1" None) as [_ H].
  apply (H current Delete); [left; split; reflexivity|].
  vm_compute. reflexivity.
Defined.

(** X20.  A root-level material (legacy rules) is updated and deleted exactly
    by the actor named in the [uid] of its [createdBy] map or by the creator
    of the class that its [classId] field names: the two statements are
    alternatives and either alone grants. *)
Theorem root_material_write_decision (st : store) (u m : string) (pr : option doc)
    (o : operation) :
  update_or_delete o = true ->
  decision legacy st (by_actor u o (root_material_path m) pr)
  = doc_subfield_is (st !! root_material_path m) "createdBy" "uid" u
    || creator_of_named_class st (st !! root_material_path m) u.
Proof.
  intros Ho.
  assert (E : granted (Legacy.is_creator_of_resource_class st
                         (by_actor u o (root_material_path m) pr))
              = creator_of_named_class st (st !! root_material_path m) u).
  { unfold Legacy.is_creator_of_resource_class, creator_of_named_class,
      resource_field, resource, by_actor, field. cbn [path auth auth_uid].
    destruct (st !! root_material_path m) as [d|]; cbn; [|reflexivity].
    destruct (d !! "classId") as [v|]; cbn; [|reflexivity].
    destruct v; try reflexivity. apply granted_str_eq_doc. }
  destruct o; try discriminate Ho; unfold by_actor in *;
    cbn -[lookup granted str_eq Legacy.is_creator_of_resource_class resource_field
          doc_subfield_is creator_of_named_class];
    rewrite E, orb_false_r; f_equal; apply granted_str_eq_subdoc.
Qed.

Lemma root_material_write_decision_witness :
  decision legacy
    (<[root_material_path "m1" := mkdoc [("classId", VStr "c1")]]> demo)
    (by_actor "alice" Delete (root_material_path "m1") None) = true.
Proof.
  rewrite (root_material_write_decision
             (<[root_material_path "m1" := mkdoc [("classId", VStr "c1")]]> demo)
             "alice" "m1" None Delete eq_refl).
  vm_compute. reflexivity.
Defined.

(** ** Gallery, albums, featured images and gallery approvals *)

Lemma isAdmin_granted (g : generation) (st : store) (rq : request) (c u : string) :
  auth rq = Some u ->
  match g with
  | current => Current.isAdmin st rq c
  | legacy => Legacy.isAdmin st rq c
  end = Ok true ->
  doc_field_is (resource st rq) "createdBy" u || admin_role g st rq c = true.
Proof.
  intros Hu H. destruct (isAdmin_granted_eq st rq c u Hu) as [C L].
  destruct g; unfold admin_role; [rewrite orb_assoc, <- C | rewrite <- L];
    now rewrite H.
Qed.

Lemma chain3_inv (t o a : eval bool) :
  granted (t ||| o ||| a) = true -> t = Ok true \/ o = Ok true \/ a = Ok true.
Proof. destruct t as [[]|], o as [[]|], a as [[]|]; cbn; try discriminate; auto. Qed.

Lemma chain2_inv (o a : eval bool) :
  granted (o ||| a) = true -> o = Ok true \/ a = Ok true.
Proof. destruct o as [[]|], a as [[]|]; cbn; try discriminate; auto. Qed.

Lemma resource_creator_isAdmin (g : generation) (st : store) (rq : request)
    (c : string) :
  str_eq (auth_uid rq) (resource_field st rq "createdBy") = Ok true ->
  match g with
  | current => Current.isAdmin st rq c
  | legacy => Legacy.isAdmin st rq c
  end = Ok true.
Proof.
  intros H. destruct g; unfold Current.isAdmin, Legacy.isAdmin,
    Current.is_resource_creator, Legacy.is_resource_creator; now rewrite H.
Qed.

Lemma admin_managed_condition (g : generation) (st : store) (u c i : string)
    (pr : option doc) (o : operation) (p : docpath) :
  In p (admin_managed_path c i) ->
  update_or_delete o = true ->
  decision g st (by_actor u o p pr) = true ->
  is_class_creator st (by_actor u o p pr) c = Ok true
  \/ match g with
     | current => Current.isAdmin st (by_actor u o p pr) c
     | legacy => Legacy.isAdmin st (by_actor u o p pr) c
     end = Ok true.
Proof.
  intros Hp Ho. cbn in Hp.
  destruct Hp as [<- | [<- | [<- | [<- | []]]]];
    destruct o; try discriminate Ho; intros H; destruct g;
    unfold by_actor in *;
    cbn -[lookup granted str_eq is_class_creator Current.isAdmin Legacy.isAdmin
          resource_field auth_uid or_else] in H;
    rewrite orb_false_r in H;
    first
      [ apply chain3_inv in H as [H | [H | H]];
        [ right;
          first [ exact (resource_creator_isAdmin current _ _ c H)
                | exact (resource_creator_isAdmin legacy _ _ c H) ]
        | now left | now right ]
      | apply chain2_inv in H as [H | H]; [now left | now right] ].
Qed.

(** X21.  A photo, an album, a featured image and a gallery approval are
    updated and deleted only by the actor named in the stored [createdBy],
    by the creator of the class, or by an actor whose Member record has a
    role that [isAdmin()] accepts: [admin], and under the current rules also
    [teacher].  A plain member who created neither the document nor the
    class is denied. *)
Theorem admin_managed_write_only_if (g : generation) (st : store) (u c i : string)
    (pr : option doc) (o : operation) (p : docpath) :
  In p (admin_managed_path c i) ->
  update_or_delete o = true ->
  decision g st (by_actor u o p pr) = true ->
  doc_field_is (st !! p) "createdBy" u
  || doc_field_is (st !! class_path c) "createdBy" u
  || admin_role g st (by_actor u o p pr) c = true.
Proof.
  intros Hp Ho H.
  destruct (admin_managed_condition g st u c i pr o p Hp Ho H) as [Hc | Ha].
  - unfold is_class_creator, get_field in Hc. cbn [by_actor auth auth_uid] in Hc.
    rewrite <- (granted_str_eq_doc (st !! class_path c)), Hc.
    cbn [granted]. now rewrite orb_true_r.
  - apply (isAdmin_granted g st (by_actor u o p pr) c u eq_refl) in Ha.
    change (resource st (by_actor u o p pr)) with (st !! p) in Ha.
    apply orb_true_iff in Ha as [Ha | Ha]; rewrite Ha;
      [reflexivity | apply orb_true_r].
Qed.

Lemma admin_managed_write_only_if_witness :
  doc_field_is (demo_gallery !! gallery_path "c1" "g1") "createdBy" "carol"
  || doc_field_is (demo_gallery !! class_path "c1") "createdBy" "carol"
  || admin_role current demo_gallery
       (by_actor "carol" Update (gallery_path "c1" "g1") None) "c1" = true.
Proof.
  apply (admin_managed_write_only_if current demo_gallery "carol" "c1" "g1" None
           Update (gallery_path "c1" "g1")).
  - left. reflexivity.
  - reflexivity.
  - vm_compute. reflexivity.
Defined.

(** X22.  Teachers manage the gallery under the current rules only.  For a
    photo, an album, a featured image or a gallery approval that somebody
    else created in a class that somebody else created, an actor whose
    Member record has role [teacher] is allowed to update and delete under
    the current rules and denied under the legacy rules. *)
Theorem teacher_manages_gallery_in_current_only (st : store) (u c i : string)
    (pr : option doc) (o : operation) (p : docpath) :
  In p (admin_managed_path c i) ->
  update_or_delete o = true ->
  doc_field_differs (st !! p) "createdBy" u = true ->
  doc_field_differs (st !! class_path c) "createdBy" u = true ->
  teacher_member st (by_actor u o p pr) c = true ->
  decision current st (by_actor u o p pr) = true
  /\ decision legacy st (by_actor u o p pr) = false.
Proof.
  intros Hp Ho Hd Hc Ht.
  set (rq := by_actor u o p pr).
  assert (T1 : str_eq (auth_uid rq) (resource_field st rq "createdBy") = Ok false).
  { unfold resource_field, resource, rq, by_actor, field. cbn [path auth auth_uid].
    unfold doc_field_differs in Hd.
    destruct (st !! p) as [m|]; [|discriminate]. cbn.
    destruct (m !! "createdBy") as [v|]; [|discriminate]. cbn.
    now destruct (val_is_str v u). }
  assert (T2 : is_class_creator st rq c = Ok false).
  { unfold is_class_creator, get_field, rq, by_actor, field. cbn [auth auth_uid].
    unfold doc_field_differs in Hc.
    destruct (st !! class_path c) as [m|]; [|discriminate]. cbn.
    destruct (m !! "createdBy") as [v|]; [|discriminate]. cbn.
    now destruct (val_is_str v u). }
  assert (A : Current.isAdmin st rq c = Ok true /\ Legacy.isAdmin st rq c = Ok false).
  { unfold Current.isAdmin, Legacy.isAdmin, Current.is_resource_creator,
      Legacy.is_resource_creator. rewrite T1. cbn [or_else].
    revert Ht. unfold teacher_member, member_exists, member_role, auth_uid,
      exists_doc, get_field, doc_field_is, field, eq_lit, rq, by_actor. cbn [auth bind].
    destruct (st !! member_path c u) as [m|]; cbn; [|discriminate].
    destruct (m !! "role") as [v|]; cbn; [|discriminate].
    destruct v; cbn; try discriminate.
    intros ->%String.eqb_eq. split; reflexivity. }
  destruct A as [Ac Al]. cbn in Hp.
  destruct Hp as [<- | [<- | [<- | [<- | []]]]];
    destruct o; try discriminate Ho; fold rq; split;
    unfold rq, by_actor in *;
    cbn -[lookup granted str_eq is_class_creator Current.isAdmin Legacy.isAdmin
          resource_field auth_uid];
    rewrite ?T1, ?T2, ?Ac, ?Al; reflexivity.
Qed.

Lemma teacher_manages_gallery_in_current_only_witness :
  decision current demo_gallery
    (by_actor "carol" Update (gallery_approval_path "c1" "g1") None) = true
  /\ decision legacy demo_gallery
       (by_actor "carol" Update (gallery_approval_path "c1" "g1") None) = false.
Proof.
  apply (teacher_manages_gallery_in_current_only demo_gallery "carol" "c1" "g1" None
           Update (gallery_approval_path "c1" "g1")).
  - right; right; right; left. reflexivity.
  - reflexivity.
  - vm_compute. reflexivity.
  - vm_compute. reflexivity.
  - vm_compute. reflexivity.
Defined.

(** ** Subjects under the legacy rules, classes, and what a write may say *)

(** X23.  Under the legacy rules a Subject is updated and deleted only by
    its creator or by the creator of the class, and its creator always may.
    The [teachers] list gives no right: a teacher for the subject who is
    neither of the two is denied. *)
Theorem legacy_subject_write_decision (st : store) (u c s : string)
    (pr : option doc) (o : operation) :
  update_or_delete o = true ->
  (decision legacy st (by_actor u o (subject_path c s) pr) = true ->
   subject_creator_or_owner st (by_actor u o (subject_path c s) pr) c u = true)
  /\ (doc_field_is (st !! subject_path c s) "createdBy" u = true ->
      decision legacy st (by_actor u o (subject_path c s) pr) = true)
  /\ (granted (Current.isTeacherForSubject st
                 (by_actor u o (subject_path c s) pr) c s) = true ->
      subject_creator_or_owner st (by_actor u o (subject_path c s) pr) c u = false ->
      decision legacy st (by_actor u o (subject_path c s) pr) = false).
Proof.
  intros Ho.
  assert (E : decision legacy st (by_actor u o (subject_path c s) pr)
              = granted (str_eq (Ok u) (get_field st (subject_path c s) "createdBy")
                         ||| str_eq (Ok u) (get_field st (class_path c) "createdBy"))).
  { destruct o; try discriminate Ho; eval_rules; reflexivity. }
  assert (A : decision legacy st (by_actor u o (subject_path c s) pr) = true ->
              subject_creator_or_owner st (by_actor u o (subject_path c s) pr) c u
              = true).
  { rewrite E. unfold subject_creator_or_owner, resource, get_field, by_actor.
    cbn [path]. now rewrite granted_or, !granted_str_eq_doc. }
  split; [exact A|]. split.
  - rewrite E. unfold get_field. rewrite granted_or, !granted_str_eq_doc.
    now intros ->.
  - intros _ Hn. apply not_true_is_false. intros H. apply A in H. congruence.
Qed.

Lemma legacy_subject_write_decision_witness :
  decision legacy demo (by_actor "carol" Update (subject_path "c1" "s1") None) = false
  /\ decision legacy demo (by_actor "alice" Update (subject_path "c1" "s1") None) = true.
Proof.
  destruct (legacy_subject_write_decision demo "carol" "c1" "s1" None Update eq_refl)
    as (_ & _ & Hc).
  destruct (legacy_subject_write_decision demo "alice" "c1" "s1" None Update eq_refl)
    as (_ & Ha & _).
  split; [apply Hc | apply Ha]; vm_compute; reflexivity.
Defined.

(** X24.  The owner of a class is whoever the created document names.  Any
    authenticated actor may create a Class document, whatever its
    [createdBy] says; once it is stored, it is updated and deleted exactly by
    the actor it names, who need not be the one who created it, under both
    rule generations. *)
Theorem class_owner_is_the_named_creator (g : generation) (st : store)
    (u v w c : string) (d : doc) (pr : option doc) (o : operation) :
  d !! "createdBy" = Some (VStr v) ->
  update_or_delete o = true ->
  decision g st (by_actor u Create (class_path c) (Some d)) = true
  /\ decision g (<[class_path c := d]> st) (by_actor w o (class_path c) pr)
     = String.eqb v w.
Proof.
  intros Hd Ho. split; [destruct g; reflexivity|].
  destruct o; try discriminate Ho; destruct g; eval_rules;
    rewrite granted_str_eq_doc; unfold doc_field_is;
    now rewrite lookup_insert_eq, Hd.
Qed.

Lemma class_owner_is_the_named_creator_witness :
  decision current demo
    (by_actor "zoe" Create (class_path "c2") (Some (mkdoc [("createdBy", VStr "alice")])))
  = true
  /\ decision current
       (<[class_path "c2" := mkdoc [("createdBy", VStr "alice")]]> demo)
       (by_actor "zoe" Delete (class_path "c2") None)
     = String.eqb "alice" "zoe".
Proof.
  apply (class_owner_is_the_named_creator current demo "zoe" "alice" "zoe" "c2"
           (mkdoc [("createdBy", VStr "alice")]) None Delete).
  - vm_compute. reflexivity.
  - reflexivity.
Defined.

(** X25.  No rule validates what an update writes.  The decision on a read,
    an update or a delete is the same whatever document the request proposes,
    on every path, for every actor and under both rule generations; no
    stored field is protected against being rewritten by an actor who may
    update the document. *)
Theorem write_content_unchecked (g : generation) (st : store) (a : option string)
    (o : operation) (p : docpath) (pr1 pr2 : option doc) :
  o <> Create ->
  decision g st (Request a o p pr1) = decision g st (Request a o p pr2).
Proof.
  intros Ho.
  destruct g; cbn [decision]; unfold Current.allowed, Legacy.allowed; cbn [path op].
  - destruct (Current.resolve p) as [t|]; [|reflexivity].
    destruct t, o; try congruence; try reflexivity.
    destruct a as [u|]; [|reflexivity].
    cbn -[has_key size_of proposed_field]. now destruct (String.eqb u userId).
  - destruct (Legacy.resolve p) as [t|]; [|reflexivity].
    destruct t, o; try congruence; try reflexivity.
    destruct a as [u|]; [|reflexivity].
    cbn -[has_key size_of proposed_field]. now destruct (String.eqb u userId).
Qed.

Lemma write_content_unchecked_witness :
  decision current demo
    (Request (Some "alice") Update (class_path "c1")
       (Some (mkdoc [("createdBy", VStr "zoe")])))
  = decision current demo (Request (Some "alice") Update (class_path "c1") None).
Proof.
  apply (write_content_unchecked current demo (Some "alice") Update (class_path "c1")).
  discriminate.
Defined.

(** * The groups of an assignment *)

Section GroupFacts.
Import Groups.

Lemma find_from_spec (u : string) (gs : list group) (i k : nat) (g : group) :
  find_from u i gs = Some (k, g)
  <-> exists j, k = i + j /\ gs !! j = Some g /\ lists u g = true
                /\ forall j' g', j' < j -> gs !! j' = Some g' -> lists u g' = false.
Proof.
  revert i. induction gs as [|g0 gs IH]; intros i; cbn [find_from].
  - split; [discriminate | intros (j & _ & H & _); discriminate H].
  - fold (lists u g0). destruct (lists u g0) eqn:L.
    + split.
      * intros [= <- <-]. exists 0. repeat split; [lia | exact L | lia].
      * intros (j & -> & Hj & Hg & Hlt). destruct j as [|j].
        -- injection Hj as <-. f_equal. f_equal. lia.
        -- specialize (Hlt 0 g0 ltac:(lia) eq_refl). congruence.
    + rewrite IH. split.
      * intros (j & -> & Hj & Hg & Hlt). exists (S j).
        repeat split; [lia | exact Hj | exact Hg |].
        intros [|j'] g' Hlt' Hg'; [now injection Hg' as <- |].
        apply (Hlt j'); [lia | exact Hg'].
      * intros (j & -> & Hj & Hg & Hlt). destruct j as [|j].
        -- injection Hj as <-. congruence.
        -- exists j. repeat split; [lia | exact Hj | exact Hg |].
           intros j' g' Hlt' Hg'. apply (Hlt (S j')); [lia | exact Hg'].
Qed.

Lemma find_from_none (u : string) (gs : list group) (i : nat) :
  find_from u i gs = None <-> Forall (fun g => lists u g = false) gs.
Proof.
  revert i. induction gs as [|g0 gs IH]; intros i; cbn [find_from].
  - split; [constructor | reflexivity].
  - fold (lists u g0). destruct (lists u g0) eqn:L.
    + split; [discriminate | intros H; inversion H; congruence].
    + rewrite IH. split; [now constructor | now inversion 1].
Qed.


Lemma lookup_map {A B : Type} (f : A -> B) (l : list A) (i : nat) :
  map f l !! i = f <$> l !! i.
Proof. revert i. induction l as [|x l IH]; intros [|i]; cbn; auto. Qed.

Lemma filter_user_without (u : string) (g : group) :
  List.filter (is_user u) (members (without u g)) = [].
Proof.
  unfold without. cbn [members]. induction (members g) as [|m ms IH]; [reflexivity|].
  cbn. destruct (is_user u m) eqn:E; cbn; [exact IH | now rewrite E].
Qed.

Lemma lists_without (u : string) (g : group) : lists u (without u g) = false.
Proof.
  unfold lists, without. cbn [members]. induction (members g) as [|m ms IH]; [reflexivity|].
  cbn. destruct (is_user u m) eqn:E; cbn; [exact IH | now rewrite E].
Qed.

Lemma without_without (u : string) (g : group) : without u (without u g) = without u g.
Proof.
  unfold without. cbn [name members]. f_equal.
  induction (members g) as [|m ms IH]; [reflexivity|].
  cbn. destruct (is_user u m) eqn:E; cbn; [exact IH | now rewrite E, IH].
Qed.

Lemma listings_cons (u : string) (g : group) (gs : list group) :
  listings u (g :: gs) = length (List.filter (is_user u) (members g)) + listings u gs.
Proof. reflexivity. Qed.

Lemma listings_cleared (u : string) (gs : list group) :
  listings u (map (without u) gs) = 0.
Proof.
  induction gs as [|g gs IH]; [reflexivity|].
  cbn [map]. now rewrite listings_cons, filter_user_without, IH.
Qed.

Lemma listings_app (u : string) (gs hs : list group) :
  listings u (gs ++ hs) = listings u gs + listings u hs.
Proof. unfold listings. now rewrite map_app, list_sum_app. Qed.

Lemma is_user_newMember (u : user) : is_user (uid u) (newMember u) = true.
Proof. unfold is_user, newMember. cbn. apply String.eqb_refl. Qed.

Lemma handleJoinGroup_shape (u : user) (i : nat) (gs : list group) (g : group) :
  gs !! i = Some g ->
  handleJoinGroup u i gs
  = Some (map (without (uid u)) (take i gs)
          ++ joined u g :: map (without (uid u)) (drop (S i) gs))%list.
Proof.
  intros Hg. unfold handleJoinGroup. cbv zeta. rewrite lookup_map, Hg. cbn [fmap option_fmap option_map].
  f_equal. rewrite insert_take_drop.
  - now rewrite firstn_map, skipn_map.
  - rewrite length_map. now apply lookup_lt_Some with g.
Qed.

Lemma find_from_cleared_then (u : string) (gs hs : list group) (g : group) (i : nat) :
  lists u g = true ->
  find_from u i (map (without u) gs ++ g :: hs)%list = Some (i + length gs, g).
Proof.
  intros Hg. revert i. induction gs as [|g0 gs IH]; intros i; cbn [map app find_from length].
  - fold (lists u g). rewrite Hg. do 2 f_equal. lia.
  - fold (lists u (without u g0)). rewrite lists_without, IH. do 2 f_equal. lia.
Qed.

Lemma lists_joined (u : user) (g : group) : lists (uid u) (joined u g) = true.
Proof.
  unfold lists, joined. cbn [members]. rewrite existsb_app. cbn [existsb].
  rewrite is_user_newMember. now rewrite orb_true_r.
Qed.

Lemma without_joined (u : user) (g : group) :
  without (uid u) (joined u g) = without (uid u) g.
Proof.
  unfold without at 1, joined. cbn [name members].
  rewrite List.filter_app. cbn [List.filter]. rewrite is_user_newMember. cbn [negb].
  rewrite app_nil_r. apply without_without.
Qed.

(** X26.  [findUserInGroups] gives the first group that lists the user, with
    its index, and nothing exactly when no group lists him; without a user
    or without groups it gives nothing. *)
Theorem findUserInGroups_first (u : user) (gs : list group) :
  (forall i g,
     findUserInGroups (Some u) (Some gs) = Some (i, g)
     <-> gs !! i = Some g /\ lists (uid u) g = true
         /\ forall j g', j < i -> gs !! j = Some g' -> lists (uid u) g' = false)
  /\ (findUserInGroups (Some u) (Some gs) = None
      <-> Forall (fun g => lists (uid u) g = false) gs)
  /\ findUserInGroups None (Some gs) = None
  /\ findUserInGroups (Some u) None = None.
Proof.
  split; [|split; [apply find_from_none | split; reflexivity]].
  intros i g. unfold findUserInGroups. rewrite find_from_spec. split.
  - intros (j & -> & H). exact H.
  - intros H. exists i. split; [reflexivity | exact H].
Qed.

(** X27.  Joining a group leaves the user in that group and in no other.
    For an index that names a group, [handleJoinGroup] writes groups of the
    same number and names in which the user is listed exactly once, at the
    end of the chosen group, so that [findUserInGroups] finds him there; the
    listings of every other user are as they were.  For an index that names
    no group nothing is written. *)
Theorem handleJoinGroup_joins (u : user) (i : nat) (gs : list group) :
  (i < length gs ->
   exists gs' g',
     handleJoinGroup u i gs = Some gs'
     /\ length gs' = length gs
     /\ map name gs' = map name gs
     /\ findUserInGroups (Some u) (Some gs') = Some (i, g')
     /\ last (members g') = Some (newMember u)
     /\ listings (uid u) gs' = 1
     /\ map (without (uid u)) gs' = map (without (uid u)) gs)
  /\ (length gs <= i -> handleJoinGroup u i gs = None).
Proof.
  split.
  - intros Hi. destruct (lookup_lt_is_Some_2 gs i Hi) as [g Hg].
    exists (map (without (uid u)) (take i gs)
            ++ joined u g :: map (without (uid u)) (drop (S i) gs))%list, (joined u g).
    pose proof (take_drop_middle gs i g Hg) as Hsplit.
    split; [now apply handleJoinGroup_shape|].
    split.
    { rewrite <- Hsplit at 3. rewrite !length_app. cbn [length]. now rewrite !length_map. }
    split.
    { rewrite <- Hsplit at 3. rewrite !map_app. cbn [map]. rewrite !map_map.
      reflexivity. }
    split.
    { unfold findUserInGroups. rewrite find_from_cleared_then by apply lists_joined.
      do 2 f_equal. rewrite length_take. lia. }
    split.
    { unfold joined. cbn [members]. apply last_snoc. }
    split.
    { rewrite listings_app, listings_cons, !listings_cleared.
      unfold joined. cbn [members]. rewrite List.filter_app, filter_user_without.
      cbn [List.filter]. now rewrite is_user_newMember. }
    rewrite <- Hsplit at 3. rewrite !map_app. cbn [map].
    rewrite !map_map, without_joined.
    f_equal; [|f_equal]; apply map_ext; intros x; apply without_without.
  - intros Hi. unfold handleJoinGroup. cbv zeta.
    rewrite lookup_map, (lookup_ge_None_2 gs i Hi). reflexivity.
Qed.

Lemma handleJoinGroup_joins_witness :
  Groups.handleJoinGroup (Groups.User "u1" None "ann@school.org") 1
    [Groups.Group "red" [Groups.Member "u1" "ann" "ann@school.org"];
     Groups.Group "blue" []]
  = Some [Groups.Group "red" [];
          Groups.Group "blue" [Groups.Member "u1" "ann" "ann@school.org"]].
Proof.
  destruct (handleJoinGroup_joins (Groups.User "u1" None "ann@school.org") 1
              [Groups.Group "red" [Groups.Member "u1" "ann" "ann@school.org"];
               Groups.Group "blue" []]) as [H _].
  destruct H as (gs' & g' & H & _); [cbn; lia|].
  rewrite H. vm_compute in H. injection H as <-. reflexivity.
Defined.

(** X28.  Leaving removes the user from the group that [findUserInGroups]
    found and touches no other group; when no group lists the user the
    handler writes nothing.  After a join, a leave gives the groups in which
    the user is listed nowhere. *)
Theorem handleLeaveGroup_leaves (u : user) (gs : list group) :
  (findUserInGroups (Some u) (Some gs) = None ->
   handleLeaveGroup (Some u) (Some gs) = None)
  /\ (forall i g,
        findUserInGroups (Some u) (Some gs) = Some (i, g) ->
        exists gs',
          handleLeaveGroup (Some u) (Some gs) = Some gs'
          /\ gs' !! i = Some (without (uid u) g)
          /\ lists (uid u) (without (uid u) g) = false
          /\ forall j, j <> i -> gs' !! j = gs !! j)
  /\ (forall i gs',
        handleJoinGroup u i gs = Some gs' ->
        handleLeaveGroup (Some u) (Some gs') = Some (map (without (uid u)) gs)
        /\ findUserInGroups (Some u) (Some (map (without (uid u)) gs)) = None
        /\ listings (uid u) (map (without (uid u)) gs) = 0).
Proof.
  split; [|split].
  - intros H. unfold handleLeaveGroup. now rewrite H.
  - intros i g H. exists (alter (without (uid u)) i gs).
    assert (Hg : gs !! i = Some g).
    { unfold findUserInGroups in H. apply find_from_spec in H as (j & -> & H & _).
      exact H. }
    split; [unfold handleLeaveGroup; now rewrite H|].
    split; [now rewrite list_lookup_alter_eq, Hg|].
    split; [apply lists_without|].
    intros j Hj. now apply list_lookup_alter_ne.
  - intros i gs' H.
    assert (Hi : i < length gs).
    { destruct (Nat.lt_ge_cases i (length gs)) as [Hi | Hi]; [exact Hi|].
      unfold handleJoinGroup in H. cbv zeta in H.
      rewrite lookup_map, (lookup_ge_None_2 gs i Hi) in H. discriminate H. }
    destruct (lookup_lt_is_Some_2 gs i Hi) as [g Hg].
    rewrite (handleJoinGroup_shape u i gs g Hg) in H. injection H as <-.
    pose proof (take_drop_middle gs i g Hg) as Hsplit.
    split; [|split].
    + unfold handleLeaveGroup, findUserInGroups.
      rewrite find_from_cleared_then by apply lists_joined.
      cbn [Nat.add]. f_equal.
      replace (length (take i gs))
        with (length (map (without (uid u)) (take i gs)) + 0)
        by (rewrite length_map; lia).
      rewrite alter_app_r. cbn [alter list_alter].
      rewrite without_joined. rewrite <- Hsplit at 3.
      now rewrite map_app.
    + apply find_from_none. clear. induction gs as [|g0 gs IH]; cbn [map].
      * constructor.
      * constructor; [apply lists_without | exact IH].
    + apply listings_cleared.
Qed.

Lemma handleLeaveGroup_leaves_witness :
  Groups.handleLeaveGroup (Some (Groups.User "u1" None "ann@school.org"))
    (Some [Groups.Group "red" [];
           Groups.Group "blue" [Groups.Member "u1" "ann" "ann@school.org"]])
  = Some [Groups.Group "red" []; Groups.Group "blue" []].
Proof.
  destruct (handleLeaveGroup_leaves (Groups.User "u1" None "ann@school.org")
              [Groups.Group "red" [Groups.Member "u1" "ann" "ann@school.org"];
               Groups.Group "blue" []]) as (_ & _ & H).
  destruct (H 1 [Groups.Group "red" [];
                 Groups.Group "blue" [Groups.Member "u1" "ann" "ann@school.org"]])
    as [H1 _]; [vm_compute; reflexivity|].
  rewrite H1. vm_compute. reflexivity.
Defined.

Lemma removePhoto_from_past {A : Type} (k i : nat) (photos : list A) :
  i < k -> removePhoto_from k i photos = photos.
Proof.
  revert k. induction photos as [|x photos IH]; intros k Hk; [reflexivity|].
  cbn [removePhoto_from]. destruct (Nat.eqb_spec k i) as [E|_]; [lia|].
  f_equal. apply IH. lia.
Qed.

Lemma removePhoto_from_spec {A : Type} (k i : nat) (photos : list A) :
  removePhoto_from k (k + i) photos = (take i photos ++ drop (S i) photos)%list.
Proof.
  revert k i. induction photos as [|x photos IH]; intros k i.
  - now destruct i.
  - cbn [removePhoto_from]. destruct i as [|i].
    + rewrite Nat.add_0_r, Nat.eqb_refl. cbn [take drop app].
      apply removePhoto_from_past. lia.
    + destruct (Nat.eqb_spec k (k + S i)) as [E|_]; [lia|].
      cbn [take drop app]. f_equal.
      replace (k + S i) with (S k + i) by lia. apply IH.
Qed.

(** X29.  [removePhoto] drops the photo at the given position and keeps the
    others in their order, also when the same photo is selected twice; a
    position beyond the last photo changes nothing. *)
Theorem removePhoto_by_position {A : Type} (i : nat) (photos : list A) :
  removePhoto i photos = (take i photos ++ drop (S i) photos)%list
  /\ (i < length photos -> S (length (removePhoto i photos)) = length photos)
  /\ (length photos <= i -> removePhoto i photos = photos).
Proof.
  assert (E : removePhoto i photos = (take i photos ++ drop (S i) photos)%list)
    by apply (removePhoto_from_spec 0 i).
  split; [exact E|]. rewrite E. split.
  - intros Hi. rewrite length_app, length_take, length_drop. lia.
  - intros Hi. rewrite take_ge by exact Hi. rewrite drop_ge by lia.
    apply app_nil_r.
Qed.

Lemma removePhoto_by_position_witness :
  S (length (Groups.removePhoto 1 ["a.jpg"; "b.jpg"; "a.jpg"])) = 3
  /\ Groups.removePhoto 5 ["a.jpg"; "b.jpg"; "a.jpg"] = ["a.jpg"; "b.jpg"; "a.jpg"].
Proof.
  split.
  - apply (removePhoto_by_position 1 ["a.jpg"; "b.jpg"; "a.jpg"]). cbn. lia.
  - apply (removePhoto_by_position 5 ["a.jpg"; "b.jpg"; "a.jpg"]). cbn. lia.
Defined.
End GroupFacts.
